(** * Hybrid LLM router and its telemetry: a shallow embedding

    The development follows two modules of the backend,
    [app/services/metrics.py] (class [HybridMetrics]) and
    [app/services/hybrid_router.py] (class [HybridRouter]).

    Conventions of the embedding:
    - a Python [int] is a [Z]; a Python [float] is a rational [Q] (the exact
      value the float approximates; literals such as [0.3] are [3 # 10]);
    - a Python [str] is a [string]; an f-string is kept as the sequence of its
      literal and formatted fields ([Text]), the digits of a formatted float
      are not rendered;
    - [Optional[T]] is [option T]; a list is a [list];
    - a raised exception is the [Raise] branch of [result];
    - [datetime.now()] reads a clock that is part of the process state
      ([World]); the telemetry object lives in the same state, so that the
      effect of every method on it can be stated;
    - calls to [logger] have no influence on any value and are left out. *)

From Stdlib Require Import List String ZArith QArith Qround Bool Lia Lqa.
Import ListNotations.

Local Open Scope Z_scope.

(** ** Python helpers *)

(** Exceptions that the modelled code can raise. [AdapterError] stands for
    any [Exception] raised inside a backend client. *)
Inductive exn : Type :=
| RuntimeError (msg : string)
| KeyError (key : string)
| ValueError (msg : string)
| ZeroDivisionError
| AdapterError (msg : string).

(** [str(e)] *)
Definition str_exn (e : exn) : string :=
  match e with
  | RuntimeError m => m
  | KeyError k => k
  | ValueError m => m
  | ZeroDivisionError => "division by zero"
  | AdapterError m => m
  end.

Inductive result (A : Type) : Type :=
| Ok (a : A)
| Raise (e : exn).
Arguments Ok {A} a.
Arguments Raise {A} e.

Definition rbind {A B : Type} (c : result A) (k : A -> result B) : result B :=
  match c with
  | Ok a => k a
  | Raise e => Raise e
  end.

Declare Scope result_scope.
Delimit Scope result_scope with result.
Notation "'try!' x ':=' c 'in' k" := (rbind c (fun x => k))
  (at level 61, x name, c at next level, right associativity) : result_scope.

(** [len(l)] as a Python int *)
Definition len {A : Type} (l : list A) : Z := Z.of_nat (List.length l).

(** [l[start:]] for any integer [start], negative ones counting from the end *)
Definition slice_from {A : Type} (start : Z) (l : list A) : list A :=
  if start <? 0
  then skipn (Z.to_nat (Z.max (len l + start) 0)) l
  else skipn (Z.to_nat start) l.

(** [a / b] on numbers: true division, raising on a zero divisor *)
Definition py_div (a b : Q) : result Q :=
  if Qeq_bool b 0 then Raise ZeroDivisionError else Ok (a / b)%Q.

(** [a > b] on numbers *)
Definition Qgtb (a b : Q) : bool := negb (Qle_bool a b).

(** [sum(...)] of numbers: starts from 0 and adds from the left *)
Definition sumQ (l : list Q) : Q := fold_left Qplus l 0%Q.

(** [needle in haystack] on strings *)
Definition str_contains (needle haystack : string) : bool :=
  match String.index 0 needle haystack with
  | Some _ => true
  | None => false
  end.

(** One field of an f-string. *)
Inductive piece : Type :=
| Lit (s : string)                 (* literal text, or a [str] value *)
| Int (n : Z)                      (* an [int] printed in decimal *)
| Fixed (digits : nat) (x : Q).    (* a float under [:.<digits>f] *)

Definition Text : Type := list piece.

(** [max(items, key=key)] : the first item whose key is not exceeded later;
    [ValueError] on an empty sequence.  The key function may itself raise. *)
Fixpoint max_from {A : Type} (key : A -> result Q) (best : A) (kbest : Q)
         (l : list A) : result A :=
  match l with
  | [] => Ok best
  | x :: l' =>
      try! kx := key x in
      if Qgtb kx kbest then max_from key x kx l' else max_from key best kbest l'
  end%result.

Definition py_max {A : Type} (key : A -> result Q) (l : list A) : result A :=
  match l with
  | [] => Raise (ValueError "max() arg is an empty sequence")
  | x :: l' => (try! kx := key x in max_from key x kx l')%result
  end.

(** A [defaultdict]: keys in insertion order, [upd] applied to the value
    stored under [k], or to [dflt] when [k] is new (appended last). *)
Fixpoint dd_update {V : Type} (dflt : V) (upd : V -> V) (k : string)
         (d : list (string * V)) : list (string * V) :=
  match d with
  | [] => [(k, upd dflt)]
  | (k', v) :: d' =>
      if String.eqb k' k then (k', upd v) :: d'
      else (k', v) :: dd_update dflt upd k d'
  end.

(** ** The process state: the telemetry object and the wall clock *)

Section Process.
(** [Store] is the type of the telemetry object held by the process; the
    router module knows nothing about it. *)
Context {Store : Type}.

(** [clock n] is the value of the [n]-th reading of the wall clock, in
    microseconds; [ticks] counts the readings made so far. *)
Record World : Type := {
  telemetry : Store;
  clock : nat -> Z;
  ticks : nat
}.

Definition M (A : Type) : Type := World -> A * World.

Definition ret {A : Type} (a : A) : M A := fun w => (a, w).

Definition bind {A B : Type} (c : M A) (k : A -> M B) : M B :=
  fun w => let (a, w') := c w in k a w'.

(** [datetime.now()] *)
Definition datetime_now : M Z :=
  fun w => (clock w (ticks w),
            {| telemetry := telemetry w; clock := clock w; ticks := S (ticks w) |}).

Definition get_store : M Store := fun w => (telemetry w, w).

Definition put_store (s : Store) : M unit :=
  fun w => (tt, {| telemetry := s; clock := clock w; ticks := ticks w |}).
End Process.

Arguments World Store : clear implicits.
Arguments M Store A : clear implicits.

Declare Scope proc_scope.
Delimit Scope proc_scope with proc.
Notation "'do!' x ':=' c 'in' k" := (bind c (fun x => k))
  (at level 61, x name, c at next level, right associativity) : proc_scope.
Notation "c ';;!' k" := (bind c (fun _ => k))
  (at level 61, right associativity) : proc_scope.

(** ** metrics.py *)

Module Metrics.

(** [@dataclass QueryMetric] *)
Record QueryMetric : Type := {
  timestamp : Z;
  question : string;
  sensitivity : string;
  complexity : string;
  backend : string;
  success : bool;
  iterations : Z;
  latency_ms : Q;
  estimated_cost : Q;
  actual_tokens : option Z;
  user_id : option string;
  session_id : option string
}.

(** The attributes of a [HybridMetrics] object. *)
Record HybridMetrics : Type := {
  queries : list QueryMetric;
  max_history : Z;
  _total_cost : Q;
  _query_count : Z;
  _success_count : Z
}.

(** [HybridMetrics.__init__]; the default of [max_history] is 10000. *)
Definition __init__ (max_history : Z) : HybridMetrics :=
  {| queries := [];
     max_history := max_history;
     _total_cost := 0;
     _query_count := 0;
     _success_count := 0 |}.

(** [HybridMetrics.log_query] *)
Definition log_query
    (question sensitivity complexity backend : string) (success : bool)
    (iterations : Z) (latency_ms estimated_cost : Q)
    (actual_tokens : option Z) (user_id session_id : option string)
  : M HybridMetrics QueryMetric :=
  (do! now := datetime_now in
   let metric :=
     {| timestamp := now; question := question; sensitivity := sensitivity;
        complexity := complexity; backend := backend; success := success;
        iterations := iterations; latency_ms := latency_ms;
        estimated_cost := estimated_cost; actual_tokens := actual_tokens;
        user_id := user_id; session_id := session_id |} in
   do! self := get_store in
   let appended := queries self ++ [metric] in
   (* Trim history if needed *)
   let kept :=
     if len appended >? max_history self
     then slice_from (- max_history self) appended
     else appended in
   put_store
     {| queries := kept;
        max_history := max_history self;
        _total_cost := (_total_cost self + estimated_cost)%Q;
        _query_count := _query_count self + 1;
        _success_count :=
          if success then _success_count self + 1 else _success_count self |}
   ;;! ret metric)%proc.

(** One entry of the list returned by [get_recommendations]: a dict with
    the keys ['type'], ['message'] and ['impact']. *)
Record Recommendation : Type := {
  type : string;
  message : Text;
  impact : Text
}.

Definition is_simple (q : QueryMetric) : bool :=
  (complexity q =? "simple")%string.

(** [q.backend in ['claude_opus', 'claude_sonnet']] *)
Definition is_expensive (q : QueryMetric) : bool :=
  existsb (String.eqb (backend q)) ["claude_opus"; "claude_sonnet"]%string.

(** [q.iterations > 1 and 'claude' in q.backend] *)
Definition is_iterative_api (q : QueryMetric) : bool :=
  (iterations q >? 1) && str_contains "claude" (backend q).

(** the loop filling [slow_backends] *)
Definition slow_backends_of (recent : list QueryMetric)
  : list (string * list Q) :=
  fold_left
    (fun d q =>
       if Qgtb (latency_ms q) 5000
       then dd_update [] (fun v => v ++ [latency_ms q]) (backend q) d
       else d)
    recent [].

(** the loop filling [cost_by_backend] *)
Definition cost_by_backend_of (qs : list QueryMetric) : list (string * Q) :=
  fold_left
    (fun d q => dd_update 0%Q (fun v => (v + estimated_cost q)%Q) (backend q) d)
    qs [].

(** [lambda x: sum(x[1])/len(x[1])] *)
Definition mean_of (x : string * list Q) : result Q :=
  py_div (sumQ (snd x)) (inject_Z (len (snd x))).

(** The five checks of [get_recommendations], in the order of the source.
    Each takes the list built so far and returns it, extended or not. *)

(** "Check if simple queries are using expensive backends" *)
Definition check_simple_expensive (self : HybridMetrics)
           (recommendations : list Recommendation)
  : result (list Recommendation) :=
  let simple_queries := filter is_simple (queries self) in
  match simple_queries with
  | [] => Ok recommendations
  | _ :: _ =>
      let expensive_simple := filter is_expensive simple_queries in
      if Qgtb (inject_Z (len expensive_simple))
              (inject_Z (len simple_queries) * (3 # 10))
      then
        let potential_savings :=
          (sumQ (map estimated_cost expensive_simple) * (8 # 10))%Q in
        (try! share := py_div (inject_Z (len expensive_simple))
                              (inject_Z (len simple_queries)) in
         Ok (recommendations ++
             [ {| type := "cost_optimization";
                  message :=
                    [ Int (len expensive_simple);
                      Lit " simple queries (";
                      Fixed 0 (share * 100)%Q;
                      Lit "%) are using expensive models. Route to Haiku or Cortex to save ~80%." ];
                  impact :=
                    [ Lit "~$"; Fixed 2 potential_savings;
                      Lit " potential savings" ] |} ]))%result
      else Ok recommendations
  end.

(** "Check if iteration-heavy queries use external APIs" *)
Definition check_iterative_api (self : HybridMetrics)
           (recommendations : list Recommendation)
  : list Recommendation :=
  let iterative_api := filter is_iterative_api (queries self) in
  match iterative_api with
  | [] => recommendations
  | _ :: _ =>
      recommendations ++
      [ {| type := "data_privacy";
           message :=
             [ Int (len iterative_api);
               Lit " queries required iteration with external API. Consider Cortex or self-hosted for these to enable safe full data access and improve accuracy." ];
           impact := [ Lit "Better accuracy + data privacy" ] |} ]
  end.

(** [self.queries[-100:] if len(self.queries) >= 100 else self.queries] *)
Definition recent_of (self : HybridMetrics) : list QueryMetric :=
  if len (queries self) >=? 100
  then slice_from (-100) (queries self)
  else queries self.

(** "Check failure rate" *)
Definition check_failure_rate (recent : list QueryMetric)
           (recommendations : list Recommendation)
  : result (list Recommendation) :=
  (try! failure_rate :=
     py_div (inject_Z (len (filter (fun q => negb (success q)) recent)))
            (inject_Z (len recent)) in
   if Qgtb failure_rate (1 # 10)
   then Ok (recommendations ++
            [ {| type := "reliability";
                 message :=
                   [ Lit "Failure rate is "; Fixed 1 (failure_rate * 100)%Q;
                     Lit "% (last "; Int (len recent);
                     Lit " queries). Review error patterns and consider adding retries or fallbacks." ];
                 impact := [ Lit "Improved reliability" ] |} ])
   else Ok recommendations)%result.

(** "Check latency" *)
Definition check_latency (recent : list QueryMetric)
           (recommendations : list Recommendation)
  : result (list Recommendation) :=
  (try! avg_latency :=
     py_div (sumQ (map latency_ms recent)) (inject_Z (len recent)) in
   if Qgtb avg_latency 5000
   then
     let slow_backends := slow_backends_of recent in
     try! slowest := py_max mean_of slow_backends in
     try! slowest_avg := mean_of slowest in
     Ok (recommendations ++
         [ {| type := "performance";
              message :=
                [ Lit "Average latency is "; Fixed 1 (avg_latency / 1000)%Q;
                  Lit "s. "; Lit (fst slowest);
                  Lit " is slowest with avg "; Fixed 1 (slowest_avg / 1000)%Q;
                  Lit "s. Consider caching or using faster models for common queries." ];
              impact := [ Lit "Better user experience" ] |} ])
   else Ok recommendations)%result.

(** "Check cost distribution" *)
Definition check_cost_distribution (self : HybridMetrics)
           (recommendations : list Recommendation)
  : result (list Recommendation) :=
  if Qgtb (_total_cost self) 0
  then
    let cost_by_backend := cost_by_backend_of (queries self) in
    (try! top_cost_backend := py_max (fun x => Ok (snd x)) cost_by_backend in
     if Qgtb (snd top_cost_backend) (_total_cost self * (7 # 10))
     then
       try! share := py_div (snd top_cost_backend) (_total_cost self) in
       Ok (recommendations ++
           [ {| type := "cost_distribution";
                message :=
                  [ Lit (fst top_cost_backend); Lit " accounts for ";
                    Fixed 0 (share * 100)%Q; Lit "% of total cost ($";
                    Fixed 2 (snd top_cost_backend);
                    Lit "). Consider load balancing or using cheaper alternatives for some queries." ];
                impact := [ Lit "Cost optimization opportunity" ] |} ])
     else Ok recommendations)%result
  else Ok recommendations.

(** [HybridMetrics.get_recommendations] *)
Definition get_recommendations (self : HybridMetrics)
  : result (list Recommendation) :=
  let recommendations := [] in
  if len (queries self) <? 10
  then Ok [ {| type := "info";
               message := [ Lit "Need more data for recommendations" ];
               impact := [ Lit "N/A" ] |} ]
  else
    (try! recommendations := check_simple_expensive self recommendations in
     let recommendations := check_iterative_api self recommendations in
     let recent := recent_of self in
     try! recommendations := check_failure_rate recent recommendations in
     try! recommendations := check_latency recent recommendations in
     try! recommendations := check_cost_distribution self recommendations in
     match recommendations with
     | [] =>
         Ok [ {| type := "info";
                 message := [ Lit "No optimization opportunities identified. Current routing is efficient." ];
                 impact := [ Lit "N/A" ] |} ]
     | _ :: _ => Ok recommendations
     end)%result.

(** [@dataclass AggregatedMetrics]; a dict of counts keeps its keys in
    insertion order. *)
Record AggregatedMetrics : Type := {
  total_queries : Z;
  successful_queries : Z;
  failed_queries : Z;
  total_cost : Q;
  avg_latency_ms : Q;
  queries_by_backend : list (string * Z);
  queries_by_complexity : list (string * Z);
  queries_by_sensitivity : list (string * Z);
  avg_iterations : Q
}.

(** "Filter queries by time": a bound that is [None] is not applied, a
    [datetime] bound is always truthy. *)
Definition filter_by_time (start_time end_time : option Z)
           (qs : list QueryMetric) : list QueryMetric :=
  let filtered := qs in
  let filtered :=
    match start_time with
    | Some t => filter (fun q => timestamp q >=? t) filtered
    | None => filtered
    end in
  match end_time with
  | Some t => filter (fun q => timestamp q <=? t) filtered
  | None => filtered
  end.

(** the loop [for q in filtered: by_<dimension>[q.<dimension>] += 1] on a
    [defaultdict(int)] *)
Definition count_by (dimension : QueryMetric -> string)
           (filtered : list QueryMetric) : list (string * Z) :=
  fold_left (fun d q => dd_update 0 (fun v => v + 1) (dimension q) d)
            filtered [].

(** [sum(...)] of ints *)
Definition sumZ (l : list Z) : Z := fold_left Z.add l 0.

(** [HybridMetrics.get_aggregated_metrics] *)
Definition get_aggregated_metrics (self : HybridMetrics)
           (start_time end_time : option Z) : result AggregatedMetrics :=
  let filtered := filter_by_time start_time end_time (queries self) in
  match filtered with
  | [] =>
      Ok {| total_queries := 0; successful_queries := 0; failed_queries := 0;
            total_cost := 0; avg_latency_ms := 0;
            queries_by_backend := []; queries_by_complexity := [];
            queries_by_sensitivity := []; avg_iterations := 0 |}
  | _ :: _ =>
      (* Calculate aggregations *)
      let total := len filtered in
      let successful := len (filter success filtered) in
      let failed := total - successful in
      let total_cost := sumQ (map estimated_cost filtered) in
      (try! avg_latency :=
         py_div (sumQ (map latency_ms filtered)) (inject_Z total) in
       try! avg_iterations :=
         py_div (inject_Z (sumZ (map iterations filtered))) (inject_Z total) in
       (* Group by dimensions *)
       Ok {| total_queries := total;
             successful_queries := successful;
             failed_queries := failed;
             total_cost := total_cost;
             avg_latency_ms := avg_latency;
             queries_by_backend := count_by backend filtered;
             queries_by_complexity := count_by complexity filtered;
             queries_by_sensitivity := count_by sensitivity filtered;
             avg_iterations := avg_iterations |})%result
  end.

(** The dict returned by [get_cost_forecast]: either the single ['error']
    entry or the projection. *)
Inductive Forecast : Type :=
| ForecastError (error : string)
| Projection (forecast_period_days projected_queries : Z)
             (projected_cost daily_query_rate daily_cost_rate : Q)
             (cost_by_backend : list (string * Q)).

(** [int(x)] of a float: truncation towards zero *)
Definition py_int (x : Q) : Z :=
  if Qle_bool 0 x then Qfloor x else Qceiling x.

(** [set(q.backend for q in recent)].  Python leaves the iteration order
    of a set open; here the backends come in the order of their first
    occurrence. *)
Fixpoint backend_set (seen : list string) (recent : list QueryMetric)
  : list string :=
  match recent with
  | [] => []
  | q :: recent' =>
      if existsb (String.eqb (backend q)) seen
      then backend_set seen recent'
      else backend q :: backend_set (backend q :: seen) recent'
  end.

(** the dict comprehension of [get_cost_forecast] *)
Fixpoint forecast_by_backend (time_span : Q) (days : Z)
         (recent : list QueryMetric) (backends : list string)
  : result (list (string * Q)) :=
  match backends with
  | [] => Ok []
  | b :: backends' =>
      (try! rate :=
         py_div (sumQ (map estimated_cost
                         (filter (fun q => (backend q =? b)%string) recent)))
                time_span in
       try! rest := forecast_by_backend time_span days recent backends' in
       Ok ((b, rate * inject_Z days)%Q :: rest))%result
  end.

(** [HybridMetrics.get_cost_forecast]; the default of [days] is 30. *)
Definition get_cost_forecast (self : HybridMetrics) (days : Z)
  : result Forecast :=
  match queries self with
  | [] => Ok (ForecastError "No data for forecasting")
  | _ :: _ =>
      (* Calculate daily rate from recent data *)
      let recent :=
        if len (queries self) >=? 1000
        then slice_from (-1000) (queries self)
        else queries self in
      match recent with
      | [] | [_] => Ok (ForecastError "Insufficient data for forecasting")
      | first :: (_ :: _) as later =>
          let newest := List.last later first in
          let time_span :=
            (inject_Z (timestamp newest - timestamp first) / 1000000 / 86400)%Q in
          let time_span :=
            if Qgtb (1 # 10) time_span then 1%Q else time_span in
          (try! daily_queries := py_div (inject_Z (len recent)) time_span in
           try! daily_cost :=
             py_div (sumQ (map estimated_cost recent)) time_span in
           try! cost_by_backend :=
             forecast_by_backend time_span days recent (backend_set [] recent) in
           Ok (Projection days
                          (py_int (daily_queries * inject_Z days))
                          (daily_cost * inject_Z days)%Q
                          daily_queries daily_cost cost_by_backend))%result
      end
  end.

(** One element of the list that [export_metrics] hands to [json.dumps]. *)
Record JsonRow : Type := {
  row_timestamp : Z;          (* shown as [isoformat()] *)
  row_question : string;
  row_backend : string;
  row_success : bool;
  row_iterations : Z;
  row_latency_ms : Q;
  row_cost : Q
}.

(** One field of a CSV line. *)
Inductive csv_field : Type :=
| IsoTime (t : Z)             (* [timestamp.isoformat()] *)
| Field (p : piece).

(** What [export_metrics] serialises: the list given to [json.dumps], or
    the lines joined with a newline.  The final rendering to text is not
    modelled. *)
Inductive Export : Type :=
| JsonDump (rows : list JsonRow)
| CsvLines (lines : list (list csv_field)).

(** [q.question[:50] + "..." if len(q.question) > 50 else q.question];
    a character of a [str] is one [ascii]. *)
Definition short_question (question : string) : string :=
  if Z.of_nat (String.length question) >? 50
  then (substring 0 50 question ++ "...")%string
  else question.

(** [str(b)] of a bool *)
Definition str_bool (b : bool) : string := if b then "True" else "False".

(** [HybridMetrics.export_metrics]; the default of [format] is "json". *)
Definition export_metrics (self : HybridMetrics) (format : string)
  : result Export :=
  if (format =? "json")%string
  then Ok (JsonDump
             (map (fun q =>
                     {| row_timestamp := timestamp q;
                        row_question := short_question (question q);
                        row_backend := backend q;
                        row_success := success q;
                        row_iterations := iterations q;
                        row_latency_ms := latency_ms q;
                        row_cost := estimated_cost q |})
                  (queries self)))
  else if (format =? "csv")%string
  then Ok (CsvLines
             ([Field (Lit "timestamp,backend,success,iterations,latency_ms,cost")]
              :: map (fun q =>
                        [ IsoTime (timestamp q); Field (Lit ",");
                          Field (Lit (backend q)); Field (Lit ",");
                          Field (Lit (str_bool (success q))); Field (Lit ",");
                          Field (Int (iterations q)); Field (Lit ",");
                          Field (Fixed 1 (latency_ms q)); Field (Lit ",");
                          Field (Fixed 6 (estimated_cost q)) ])
                     (queries self)))
  else Raise (ValueError ("Unknown format: " ++ format)%string).

End Metrics.

(** ** hybrid_router.py *)

Module Router.

Inductive DataSensitivity : Type := PUBLIC | INTERNAL | CONFIDENTIAL | RESTRICTED.

Inductive QueryComplexity : Type := SIMPLE | MODERATE | COMPLEX.

Inductive Backend : Type :=
  CORTEX | MISTRAL | CLAUDE_HAIKU | CLAUDE_SONNET | CLAUDE_OPUS.

(** [Backend.value] *)
Definition value (b : Backend) : string :=
  match b with
  | CORTEX => "cortex"
  | MISTRAL => "mistral"
  | CLAUDE_HAIKU => "claude_haiku"
  | CLAUDE_SONNET => "claude_sonnet"
  | CLAUDE_OPUS => "claude_opus"
  end.

(** [repr] of a member, as [str(KeyError(member))] shows it *)
Definition repr (b : Backend) : string :=
  match b with
  | CORTEX => "<Backend.CORTEX: 'cortex'>"
  | MISTRAL => "<Backend.MISTRAL: 'mistral'>"
  | CLAUDE_HAIKU => "<Backend.CLAUDE_HAIKU: 'claude_haiku'>"
  | CLAUDE_SONNET => "<Backend.CLAUDE_SONNET: 'claude_sonnet'>"
  | CLAUDE_OPUS => "<Backend.CLAUDE_OPUS: 'claude_opus'>"
  end.

(** [@dataclass QueryContext] *)
Record QueryContext : Type := {
  question : string;
  data_source : string;
  sensitivity : DataSensitivity;
  complexity : QueryComplexity;
  requires_iteration : bool;
  estimated_tokens : Z;
  user_preference : option Backend
}.

(** [@dataclass RoutingDecision] *)
Record RoutingDecision : Type := {
  backend : Backend;
  reason : string;
  estimated_cost : Q;
  data_exposure : string
}.

(** [HybridRouter.COSTS]: cost per 1000 tokens *)
Definition COSTS (b : Backend) : Q :=
  match b with
  | CORTEX => 3 # 1000
  | MISTRAL => 1 # 1000
  | CLAUDE_HAIKU => 3 # 10000
  | CLAUDE_SONNET => 3 # 1000
  | CLAUDE_OPUS => 15 # 1000
  end.

(** [HybridRouter._estimate_cost] *)
Definition _estimate_cost (backend : Backend) (tokens : Z) : Q :=
  let tokens := if tokens =? 0 then 1000 else tokens in
  (inject_Z tokens / 1000 * COSTS backend)%Q.

(** [HybridRouter._get_data_exposure] *)
Definition _get_data_exposure (backend : Backend)
           (sensitivity : DataSensitivity) : string :=
  match backend with
  | CORTEX | MISTRAL => "full"
  | _ =>
      match sensitivity with
      | CONFIDENTIAL | RESTRICTED => "schema_only"
      | INTERNAL => "aggregated"
      | PUBLIC => "full"
      end
  end.

Section Clients.
(** [R] is what a backend client hands back on success. *)
Context {R : Type}.

(** The three injected clients, each reduced to the one method the
    router calls. *)
Record CortexClient : Type := {
  execute_with_iteration : string -> Z -> result R
}.
Record MistralClient : Type := {
  generate_with_refinement : string -> bool -> result R
}.
Record ClaudeClient : Type := {
  generate : string -> string -> string -> result R
}.

(** The attributes of a [HybridRouter] object; an absent client is
    [None], a client object is truthy. *)
Record HybridRouter : Type := {
  cortex : option CortexClient;
  mistral : option MistralClient;
  claude : option ClaudeClient;
  enable_cortex : bool;
  enable_mistral : bool
}.

Definition is_not_None {A : Type} (o : option A) : bool :=
  match o with Some _ => true | None => false end.

(** [HybridRouter.__init__] *)
Definition __init__ (cortex_client : option CortexClient)
           (mistral_client : option MistralClient)
           (claude_client : option ClaudeClient)
           (enable_cortex enable_mistral : bool) : HybridRouter :=
  {| cortex := cortex_client;
     mistral := mistral_client;
     claude := claude_client;
     enable_cortex := enable_cortex && is_not_None cortex_client;
     enable_mistral := enable_mistral && is_not_None mistral_client |}.

(** [HybridRouter._is_backend_available] *)
Definition _is_backend_available (self : HybridRouter) (backend : Backend)
  : bool :=
  match backend with
  | CORTEX => enable_cortex self
  | MISTRAL => enable_mistral self
  | _ => is_not_None (claude self)
  end.

Definition is_sensitive (s : DataSensitivity) : bool :=
  match s with
  | CONFIDENTIAL | RESTRICTED => true
  | _ => false
  end.

Definition is_snowflake (context : QueryContext) : bool :=
  (data_source context =? "snowflake")%string.

(** The part of [route] below the user-preference block (rules 1 to 4
    and the default). *)
Definition route_rules (self : HybridRouter) (context : QueryContext)
  : RoutingDecision :=
  let cost b := _estimate_cost b (estimated_tokens context) in
  (* Rule 1: Data in Snowflake + needs iteration = Cortex *)
  if is_snowflake context && requires_iteration context && enable_cortex self
  then {| backend := CORTEX;
          reason := "Snowflake data with iteration - Cortex allows safe full data access";
          estimated_cost := cost CORTEX;
          data_exposure := "full" |}
  (* Rule 2: Sensitive data + needs iteration = Self-hosted only *)
  else if is_sensitive (sensitivity context)
  then
    let api_schema_only :=
      let backend :=
        match complexity context with
        | COMPLEX => CLAUDE_SONNET
        | _ => CLAUDE_HAIKU
        end in
      {| backend := backend;
         reason := "Sensitive data, no iteration - schema-only API call";
         estimated_cost := cost backend;
         data_exposure := "schema_only" |} in
    if requires_iteration context
    then
      if enable_mistral self
      then {| backend := MISTRAL;
              reason := "Sensitive data requiring iteration - only self-hosted is safe";
              estimated_cost := cost MISTRAL;
              data_exposure := "full" |}
      else if enable_cortex self && is_snowflake context
      then {| backend := CORTEX;
              reason := "Sensitive Snowflake data with iteration - Cortex is safe";
              estimated_cost := cost CORTEX;
              data_exposure := "full" |}
      else api_schema_only
    else api_schema_only
  (* Rule 3: Simple queries = Cheapest option *)
  else
    match complexity context with
    | SIMPLE =>
        if is_snowflake context && enable_cortex self
        then {| backend := CORTEX;
                reason := "Simple query in Snowflake - native Cortex is efficient";
                estimated_cost := cost CORTEX;
                data_exposure := "full" |}
        else {| backend := CLAUDE_HAIKU;
                reason := "Simple query - Haiku is fastest and cheapest";
                estimated_cost := cost CLAUDE_HAIKU;
                data_exposure := "schema_only" |}
    (* Rule 4: Complex analysis = Best model *)
    | COMPLEX =>
        if is_snowflake context && enable_cortex self
        then {| backend := CORTEX;
                reason := "Complex Snowflake analysis - Cortex with Claude for accuracy + data access";
                estimated_cost := cost CORTEX;
                data_exposure := "full" |}
        else {| backend := CLAUDE_OPUS;
                reason := "Complex analysis - Opus 4.5 for highest accuracy (95%+)";
                estimated_cost := cost CLAUDE_OPUS;
                data_exposure :=
                  if requires_iteration context then "aggregated"
                  else "schema_only" |}
    (* Default: Balanced option *)
    | MODERATE =>
        {| backend := CLAUDE_SONNET;
           reason := "Default balanced option - good accuracy and cost";
           estimated_cost := cost CLAUDE_SONNET;
           data_exposure := "schema_only" |}
    end.

(** [HybridRouter.route] *)
Definition route (self : HybridRouter) (context : QueryContext)
  : RoutingDecision :=
  (* Honor user preference if valid *)
  match user_preference context with
  | Some preferred =>
      if _is_backend_available self preferred
      then {| backend := preferred;
              reason := "User preference";
              estimated_cost :=
                _estimate_cost preferred (estimated_tokens context);
              data_exposure :=
                _get_data_exposure preferred (sensitivity context) |}
      else route_rules self context
  | None => route_rules self context
  end.

(** [HybridRouter._execute_cortex] *)
Definition _execute_cortex (self : HybridRouter) (context : QueryContext)
           (decision : RoutingDecision) : result R :=
  match cortex self with
  | None => Raise (RuntimeError "Cortex client not configured")
  | Some client =>
      execute_with_iteration client (question context)
        (if requires_iteration context then 3 else 1)
  end.

(** [HybridRouter._execute_mistral] *)
Definition _execute_mistral (self : HybridRouter) (context : QueryContext)
           (decision : RoutingDecision) : result R :=
  match mistral self with
  | None => Raise (RuntimeError "Mistral client not configured")
  | Some client => generate_with_refinement client (question context) true
  end.

(** [model_map] of [_execute_claude]; a missing key is [None] *)
Definition model_map (b : Backend) : option string :=
  match b with
  | CLAUDE_HAIKU => Some "claude-3-5-haiku-20241022"%string
  | CLAUDE_SONNET => Some "claude-sonnet-4-20250514"%string
  | CLAUDE_OPUS => Some "claude-opus-4-20250514"%string
  | _ => None
  end.

(** [HybridRouter._execute_claude] *)
Definition _execute_claude (self : HybridRouter) (context : QueryContext)
           (decision : RoutingDecision) : result R :=
  match claude self with
  | None => Raise (RuntimeError "Claude client not configured")
  | Some client =>
      match model_map (backend decision) with
      | None => Raise (KeyError (repr (backend decision)))
      | Some model =>
          generate client (question context) model (data_exposure decision)
      end
  end.

(** The dict returned by [execute]: one shape when the backend call
    returned, one when it raised.  The fields after [result] and [error]
    are those of the nested ["routing"] dict, then ["latency_ms"]. *)
Inductive Outcome : Type :=
| Succeeded (result : R)
            (routing_backend routing_reason routing_data_exposure : string)
            (routing_estimated_cost : Q) (latency_ms : Q)
| Failed (error : string) (routing_backend routing_reason : string).

(** the ["success"] entry *)
Definition success (o : Outcome) : bool :=
  match o with
  | Succeeded _ _ _ _ _ _ => true
  | Failed _ _ _ => false
  end.

(** "Execute based on backend": the call made inside the [try] block of
    [execute] *)
Definition dispatch (self : HybridRouter) (context : QueryContext)
           (decision : RoutingDecision) : result R :=
  match backend decision with
  | CORTEX => _execute_cortex self context decision
  | MISTRAL => _execute_mistral self context decision
  | _ => _execute_claude self context decision
  end.

(** [HybridRouter.execute].  It runs in a process holding a telemetry
    object of any type [Store]. *)
Definition execute {Store : Type} (self : HybridRouter)
           (context : QueryContext) : M Store Outcome :=
  (* Get routing decision *)
  let decision := route self context in
  (do! start_time := datetime_now in
   match dispatch self context decision with
   | Ok result =>
       do! end_time := datetime_now in
       let latency_ms :=
         (inject_Z (end_time - start_time) / 1000000 * 1000)%Q in
       ret (Succeeded result (value (backend decision)) (reason decision)
                      (data_exposure decision) (estimated_cost decision)
                      latency_ms)
   | Raise e =>
       ret (Failed (str_exn e) (value (backend decision)) (reason decision))
   end)%proc.
End Clients.

Arguments CortexClient R : clear implicits.
Arguments MistralClient R : clear implicits.
Arguments ClaudeClient R : clear implicits.
Arguments HybridRouter R : clear implicits.
Arguments Outcome R : clear implicits.
(** [DataSensitivity(value)]: lookup of a member by its value.  The text
    of the [ValueError] quotes the value as [repr] does for a plain
    string. *)
Definition DataSensitivity_of (v : string) : result DataSensitivity :=
  if (v =? "public")%string then Ok PUBLIC
  else if (v =? "internal")%string then Ok INTERNAL
  else if (v =? "confidential")%string then Ok CONFIDENTIAL
  else if (v =? "restricted")%string then Ok RESTRICTED
  else Raise (ValueError ("'" ++ v ++ "' is not a valid DataSensitivity")%string).

(** [QueryComplexity(value)] *)
Definition QueryComplexity_of (v : string) : result QueryComplexity :=
  if (v =? "simple")%string then Ok SIMPLE
  else if (v =? "moderate")%string then Ok MODERATE
  else if (v =? "complex")%string then Ok COMPLEX
  else Raise (ValueError ("'" ++ v ++ "' is not a valid QueryComplexity")%string).

(** [quick_route]; its defaults are data_source="snowflake",
    sensitivity="internal", complexity="moderate", needs_iteration=False.
    The router it builds is given no client, so the type of client
    results is immaterial. *)
Definition quick_route (question data_source sensitivity complexity : string)
           (needs_iteration : bool) : result string :=
  (try! sensitivity := DataSensitivity_of sensitivity in
   try! complexity := QueryComplexity_of complexity in
   let context :=
     {| question := question;
        data_source := data_source;
        sensitivity := sensitivity;
        complexity := complexity;
        requires_iteration := needs_iteration;
        estimated_tokens := 0;
        user_preference := None |} in
   let router := @__init__ Empty_set None None None true true in
   let decision := route router context in
   Ok (value (backend decision)))%result.

End Router.


(** * Vocabulary of the specification and sample data *)

Local Open Scope string_scope.
Local Open Scope list_scope.
Local Open Scope Z_scope.

Module Spec.
Import Router.

(** "full-data-capable": the in-perimeter and the self-hosted tier *)
Definition full_data_capable (b : Backend) : bool :=
  match b with
  | CORTEX | MISTRAL => true
  | _ => false
  end.

(** The generic exposure rule (4.1.a) in the words of the specification. *)
Definition generic_exposure (b : Backend) (s : DataSensitivity) : string :=
  if full_data_capable b then "full"
  else match s with
       | CONFIDENTIAL | RESTRICTED => "schema_only"
       | INTERNAL => "aggregated"
       | PUBLIC => "full"
       end.

(** The cost estimate in the words of the specification:
    (max(token_estimate, 1)/1000) x unit price. *)
Definition cost_by_max (b : Backend) (tokens : Z) : Q :=
  (inject_Z (Z.max tokens 1) / 1000 * COSTS b)%Q.

(** A sequence of [log_query] calls, each given by the field values of the
    metric to record (its [timestamp] is not an argument and is ignored);
    the result lists the metrics the calls returned, in call order. *)
Definition log_one (a : Metrics.QueryMetric)
  : M Metrics.HybridMetrics Metrics.QueryMetric :=
  Metrics.log_query
    (Metrics.question a) (Metrics.sensitivity a) (Metrics.complexity a)
    (Metrics.backend a) (Metrics.success a) (Metrics.iterations a)
    (Metrics.latency_ms a) (Metrics.estimated_cost a)
    (Metrics.actual_tokens a) (Metrics.user_id a) (Metrics.session_id a).

(** a metric with its [timestamp] replaced *)
Definition stamped (t : Z) (a : Metrics.QueryMetric) : Metrics.QueryMetric :=
  {| Metrics.timestamp := t;
     Metrics.question := Metrics.question a;
     Metrics.sensitivity := Metrics.sensitivity a;
     Metrics.complexity := Metrics.complexity a;
     Metrics.backend := Metrics.backend a;
     Metrics.success := Metrics.success a;
     Metrics.iterations := Metrics.iterations a;
     Metrics.latency_ms := Metrics.latency_ms a;
     Metrics.estimated_cost := Metrics.estimated_cost a;
     Metrics.actual_tokens := Metrics.actual_tokens a;
     Metrics.user_id := Metrics.user_id a;
     Metrics.session_id := Metrics.session_id a |}.

Fixpoint log_all (calls : list Metrics.QueryMetric)
  : M Metrics.HybridMetrics (list Metrics.QueryMetric) :=
  match calls with
  | [] => ret []
  | a :: calls' =>
      (do! m := log_one a in
       do! ms := log_all calls' in
       ret (m :: ms))%proc
  end.

(** the last [c] elements of a list *)
Definition lastn {A : Type} (c : nat) (l : list A) : list A :=
  skipn (List.length l - c) l.

(** The share test of the cost check, on the store's contents. *)
Definition simple_queries (self : Metrics.HybridMetrics)
  : list Metrics.QueryMetric :=
  filter Metrics.is_simple (Metrics.queries self).

Definition expensive_simple (self : Metrics.HybridMetrics)
  : list Metrics.QueryMetric :=
  filter Metrics.is_expensive (simple_queries self).

(** a context with its explicit preference removed *)
Definition without_preference (context : QueryContext) : QueryContext :=
  {| question := question context;
     data_source := data_source context;
     sensitivity := sensitivity context;
     complexity := complexity context;
     requires_iteration := requires_iteration context;
     estimated_tokens := estimated_tokens context;
     user_preference := None |}.

(** the remote tier that the rules pick when neither Cortex nor Mistral
    is enabled *)
Definition remote_tier (s : DataSensitivity) (c : QueryComplexity) : Backend :=
  match s with
  | CONFIDENTIAL | RESTRICTED =>
      match c with COMPLEX => CLAUDE_SONNET | _ => CLAUDE_HAIKU end
  | _ =>
      match c with
      | SIMPLE => CLAUDE_HAIKU
      | MODERATE => CLAUDE_SONNET
      | COMPLEX => CLAUDE_OPUS
      end
  end.

(** the ["latency_ms"] entry of an outcome, when it has one *)
Definition latency_of {R : Type} (o : Outcome R) : option Q :=
  match o with
  | Succeeded _ _ _ _ _ latency_ms => Some latency_ms
  | Failed _ _ _ => None
  end.

(** [d.get(k)] on a dict kept as an association list *)
Fixpoint lookup {V : Type} (k : string) (d : list (string * V)) : option V :=
  match d with
  | [] => None
  | (k', v) :: d' => if (k' =? k)%string then Some v else lookup k d'
  end.

(** how many of the metrics have the value [k] in a dimension *)
Definition count_of (dimension : Metrics.QueryMetric -> string) (k : string)
           (qs : list Metrics.QueryMetric) : Z :=
  len (filter (fun q => (dimension q =? k)%string) qs).

(** [small] can be obtained from [big] by dropping elements *)
Fixpoint subsequence (small big : list string) : bool :=
  match small, big with
  | [], _ => true
  | _ :: _, [] => false
  | x :: small', y :: big' =>
      if (x =? y)%string then subsequence small' big'
      else subsequence small big'
  end.

(** the types of the five checks of [get_recommendations], in their order *)
Definition check_types : list string :=
  ["cost_optimization"; "data_privacy"; "reliability"; "performance";
   "cost_distribution"].

Definition has_type (t : string) (recs : list Metrics.Recommendation) : bool :=
  existsb (fun r => (Metrics.type r =? t)%string) recs.

(** the failed entries of a window *)
Definition failures (recent : list Metrics.QueryMetric) : Z :=
  len (filter (fun q => negb (Metrics.success q)) recent).

(** a metric lies within the inclusive bounds of a time range; a bound
    that is [None] is open *)
Definition in_window (start_time end_time : option Z)
           (q : Metrics.QueryMetric) : bool :=
  match start_time with
  | Some t => t <=? Metrics.timestamp q
  | None => true
  end &&
  match end_time with
  | Some t => Metrics.timestamp q <=? t
  | None => true
  end.

(** the structure returned for an empty window *)
Definition zeroed : Metrics.AggregatedMetrics :=
  {| Metrics.total_queries := 0;
     Metrics.successful_queries := 0;
     Metrics.failed_queries := 0;
     Metrics.total_cost := 0;
     Metrics.avg_latency_ms := 0;
     Metrics.queries_by_backend := [];
     Metrics.queries_by_complexity := [];
     Metrics.queries_by_sensitivity := [];
     Metrics.avg_iterations := 0 |}.

(** the count stored under [k] in a dict of counts over [qs] *)
Definition group_count (dimension : Metrics.QueryMetric -> string)
           (k : string) (qs : list Metrics.QueryMetric) : option Z :=
  if count_of dimension k qs =? 0 then None
  else Some (count_of dimension k qs).

(** the samples a forecast looks at: the most recent 1000, or all *)
Definition forecast_window (self : Metrics.HybridMetrics)
  : list Metrics.QueryMetric :=
  if len (Metrics.queries self) >=? 1000
  then slice_from (-1000) (Metrics.queries self)
  else Metrics.queries self.

(** microseconds from the oldest to the newest sample of the window *)
Definition window_span (self : Metrics.HybridMetrics) : Z :=
  match forecast_window self with
  | [] => 0
  | first :: later =>
      Metrics.timestamp (List.last later first) - Metrics.timestamp first
  end.

(** a tenth of a day, in microseconds *)
Definition tenth_of_a_day : Z := 8640000000.

(** the cost of the samples of a window that ran on one backend *)
Definition cost_on (b : string) (recent : list Metrics.QueryMetric) : Q :=
  sumQ (map Metrics.estimated_cost
            (filter (fun q => (Metrics.backend q =? b)%string) recent)).

(** the time span of a forecast after its guard against very short
    spans, in days, for a span given in microseconds *)
Definition guarded_span (span : Z) : Q :=
  let time_span := (inject_Z span / 1000000 / 86400)%Q in
  if Qgtb (1 # 10) time_span then 1%Q else time_span.

(** what one check adds to the list: nothing, or one advisory of its type *)
Definition at_most_one (t : string) (more : list Metrics.Recommendation)
  : Prop :=
  more = [] \/ exists r, more = [r] /\ Metrics.type r = t.

(** the advisory returned when no check fires *)
Definition nothing_to_do : Metrics.Recommendation :=
  {| Metrics.type := "info";
     Metrics.message :=
       [ Lit "No optimization opportunities identified. Current routing is efficient." ];
     Metrics.impact := [ Lit "N/A" ] |}.

Definition is_empty {A : Type} (l : list A) : bool :=
  match l with [] => true | _ :: _ => false end.
End Spec.

Module Sample.
Import Router.

(** A Claude client whose call fails, and one whose call answers. *)
Definition failing_claude : ClaudeClient string :=
  {| generate := fun _ _ _ => Raise (AdapterError "connection reset") |}.

Definition echo_claude : ClaudeClient string :=
  {| generate := fun question _ _ => Ok question |}.

Definition router_without_clients : HybridRouter string :=
  __init__ None None None true true.

Definition router_failing_claude : HybridRouter string :=
  __init__ None None (Some failing_claude) true true.

Definition router_echo_claude : HybridRouter string :=
  __init__ None None (Some echo_claude) true true.

Definition dax_question : QueryContext :=
  {| question := "Generate DAX for YoY growth";
     data_source := "other";
     sensitivity := PUBLIC;
     complexity := MODERATE;
     requires_iteration := false;
     estimated_tokens := 0;
     user_preference := None |}.

Definition churn_question : QueryContext :=
  {| question := "Analyze customer churn patterns";
     data_source := "snowflake";
     sensitivity := CONFIDENTIAL;
     complexity := COMPLEX;
     requires_iteration := true;
     estimated_tokens := 2000;
     user_preference := None |}.

Definition haiku_please : QueryContext :=
  {| question := "Top 10 customers by revenue";
     data_source := "snowflake";
     sensitivity := INTERNAL;
     complexity := SIMPLE;
     requires_iteration := false;
     estimated_tokens := 0;
     user_preference := Some CLAUDE_HAIKU |}.

(** A process whose telemetry object is fresh and whose clock advances by
    one millisecond per reading. *)
Definition fresh_world (max_history : Z) : World Metrics.HybridMetrics :=
  {| telemetry := Metrics.__init__ max_history;
     clock := fun n => 1000 * Z.of_nat n;
     ticks := 0 |}.

Definition sample_metric (complexity backend : string) : Metrics.QueryMetric :=
  {| Metrics.timestamp := 0;
     Metrics.question := "Sample query";
     Metrics.sensitivity := "internal";
     Metrics.complexity := complexity;
     Metrics.backend := backend;
     Metrics.success := true;
     Metrics.iterations := 1;
     Metrics.latency_ms := 500;
     Metrics.estimated_cost := 1 # 4;
     Metrics.actual_tokens := None;
     Metrics.user_id := None;
     Metrics.session_id := None |}.

(** Ten simple queries: [n] on the premium tier, three on claude_haiku and
    the other [7 - n] on cortex. *)
Definition ten_simple (n : nat) : list Metrics.QueryMetric :=
  repeat (sample_metric "simple" "claude_opus") n ++
  repeat (sample_metric "simple" "claude_haiku") 3 ++
  repeat (sample_metric "simple" "cortex") (7 - n).

Definition store_after (calls : list Metrics.QueryMetric)
  : Metrics.HybridMetrics :=
  telemetry (snd (Spec.log_all calls (fresh_world 10000))).

Definition cortex_stub : CortexClient string :=
  {| execute_with_iteration := fun question _ => Ok question |}.

Definition router_with_cortex : HybridRouter string :=
  __init__ (Some cortex_stub) None (Some echo_claude) true true.

Definition opus_please : QueryContext :=
  {| question := "Explain the revenue drop";
     data_source := "postgres";
     sensitivity := INTERNAL;
     complexity := MODERATE;
     requires_iteration := false;
     estimated_tokens := 1500;
     user_preference := Some CLAUDE_OPUS |}.

Definition sample_at (t : Z) (backend : string) (ok : bool)
           (iterations : Z) : Metrics.QueryMetric :=
  {| Metrics.timestamp := t;
     Metrics.question := "Sample query";
     Metrics.sensitivity := "internal";
     Metrics.complexity := "moderate";
     Metrics.backend := backend;
     Metrics.success := ok;
     Metrics.iterations := iterations;
     Metrics.latency_ms := 500;
     Metrics.estimated_cost := 1 # 4;
     Metrics.actual_tokens := None;
     Metrics.user_id := None;
     Metrics.session_id := None |}.
End Sample.

(** * Properties of the router *)

Section RouterFacts.
Import Router Spec.
Context {R : Type}.
Implicit Types (self : HybridRouter R) (context : QueryContext) (b : Backend).

Lemma route_rules_cases self context :
  let d := route_rules self context in
  (backend d = CORTEX /\ enable_cortex self = true /\ data_exposure d = "full") \/
  (backend d = MISTRAL /\ enable_mistral self = true /\ data_exposure d = "full"
     /\ is_sensitive (sensitivity context) = true) \/
  ((backend d = CLAUDE_HAIKU \/ backend d = CLAUDE_SONNET)
     /\ data_exposure d = "schema_only") \/
  (backend d = CLAUDE_OPUS /\ is_sensitive (sensitivity context) = false
     /\ (data_exposure d = "schema_only" \/ data_exposure d = "aggregated")).
Proof.
  unfold route_rules.
  destruct (is_snowflake context), (requires_iteration context),
    (enable_cortex self), (enable_mistral self),
    (sensitivity context), (complexity context); cbn; tauto.
Qed.

(** Case analysis on the rule of [route_rules] that produced the decision:
    names the backend ([Hb]), the exposure ([He]) and what the rule knew
    about availability ([Hon]) or sensitivity ([Hsens]). *)
Ltac by_rule router ctx :=
  destruct (route_rules_cases router ctx)
    as [(Hb & Hon & He)
       | [(Hb & Hon & He & Hsens)
         | [([Hb | Hb] & He)
           | (Hb & Hsens & He)]]];
  rewrite ?Hb, ?He in *.

Lemma get_data_exposure_full b s :
  is_sensitive s = true ->
  _get_data_exposure b s = "full" -> full_data_capable b = true.
Proof. destruct b, s; cbn; congruence. Qed.

Lemma get_data_exposure_api b s :
  is_sensitive s = true -> full_data_capable b = false ->
  _get_data_exposure b s = "schema_only".
Proof. destruct b, s; cbn; congruence. Qed.

Lemma get_data_exposure_generic b s :
  _get_data_exposure b s = generic_exposure b s.
Proof. destruct b, s; reflexivity. Qed.

Lemma sensitive_cases context :
  sensitivity context = CONFIDENTIAL \/ sensitivity context = RESTRICTED ->
  is_sensitive (sensitivity context) = true.
Proof. intros [-> | ->]; reflexivity. Qed.

(** C2, as amended: whenever the Claude client is configured, or the
    decision names Cortex or Mistral, the backend named by [route] is
    available. *)
Theorem route_backend_available self context :
  is_not_None (claude self) = true \/
  full_data_capable (backend (route self context)) = true ->
  _is_backend_available self (backend (route self context)) = true.
Proof.
  unfold route.
  destruct (user_preference context) as [preferred|];
    [destruct (_is_backend_available self preferred) eqn:Hav; [cbn; auto|]|];
    intros H; by_rule self constr:(context); cbn in *; try assumption;
    destruct H as [H | H]; congruence.
Qed.

(** C3: for a confidential or restricted context that requires iteration,
    the exposure of the decision is "full" only on a full-data-capable
    backend, and a backend that is not full-data-capable gets
    "schema_only" or "aggregated". *)
Theorem sensitive_iteration_exposure self context :
  sensitivity context = CONFIDENTIAL \/ sensitivity context = RESTRICTED ->
  requires_iteration context = true ->
  (data_exposure (route self context) = "full" ->
   full_data_capable (backend (route self context)) = true) /\
  (full_data_capable (backend (route self context)) = false ->
   data_exposure (route self context) = "schema_only" \/
   data_exposure (route self context) = "aggregated").
Proof.
  intros Hs%sensitive_cases _. unfold route.
  destruct (user_preference context) as [preferred|];
    [destruct (_is_backend_available self preferred) eqn:Hav|].
  - cbn. split.
    + now apply get_data_exposure_full.
    + intros Hc. left. now apply get_data_exposure_api.
  - by_rule self constr:(context); cbn; split; intros; auto; congruence.
  - by_rule self constr:(context); cbn; split; intros; auto; congruence.
Qed.

(** C9, as amended: an explicit preference that is available is honoured;
    the decision names the requested backend, its reason is the string
    "User preference", and its exposure follows the generic exposure
    rule. *)
Theorem route_honours_preference self context b :
  user_preference context = Some b ->
  _is_backend_available self b = true ->
  backend (route self context) = b /\
  reason (route self context) = "User preference" /\
  data_exposure (route self context) = generic_exposure b (sensitivity context).
Proof.
  intros Hp Hav. unfold route. rewrite Hp, Hav. cbn.
  repeat split. apply get_data_exposure_generic.
Qed.

(** C10: a confidential or restricted context without an explicit
    preference is never routed to the premium remote tier; it goes to
    Cortex, Mistral, claude_sonnet or claude_haiku. *)
Theorem sensitive_never_premium self context :
  sensitivity context = CONFIDENTIAL \/ sensitivity context = RESTRICTED ->
  user_preference context = None ->
  backend (route self context) <> CLAUDE_OPUS /\
  In (backend (route self context))
     [CORTEX; MISTRAL; CLAUDE_SONNET; CLAUDE_HAIKU].
Proof.
  intros Hs%sensitive_cases Hp. unfold route. rewrite Hp.
  by_rule self constr:(context); cbn; try (split; [discriminate | tauto]).
  congruence.
Qed.
End RouterFacts.

Section RouterSamples.
Import Router Spec Sample.

(** C2 fails as stated: without a Claude client the default rule still
    names claude_sonnet, which [_is_backend_available] reports as
    unavailable. *)
Lemma route_names_unavailable_claude :
  backend (route router_without_clients dax_question) = CLAUDE_SONNET /\
  _is_backend_available router_without_clients
    (backend (route router_without_clients dax_question)) = false.
Proof. split; reflexivity. Qed.

Lemma route_backend_available_witness :
  _is_backend_available router_echo_claude
    (backend (route router_echo_claude dax_question)) = true.
Proof.
  apply (route_backend_available router_echo_claude dax_question).
  left. reflexivity.
Defined.

Lemma sensitive_iteration_exposure_witness :
  (data_exposure (route router_echo_claude churn_question) = "full" ->
   full_data_capable (backend (route router_echo_claude churn_question)) = true) /\
  (full_data_capable (backend (route router_echo_claude churn_question)) = false ->
   data_exposure (route router_echo_claude churn_question) = "schema_only" \/
   data_exposure (route router_echo_claude churn_question) = "aggregated").
Proof.
  apply (sensitive_iteration_exposure router_echo_claude churn_question).
  - left. reflexivity.
  - reflexivity.
Defined.

(** C9 fails as stated: the reason of a honoured preference is spelled
    with a capital letter. *)
Lemma preference_reason_spelling :
  user_preference haiku_please = Some CLAUDE_HAIKU /\
  _is_backend_available router_echo_claude CLAUDE_HAIKU = true /\
  reason (route router_echo_claude haiku_please) <> "user preference".
Proof. repeat split. cbn. discriminate. Qed.

Lemma route_honours_preference_witness :
  backend (route router_echo_claude haiku_please) = CLAUDE_HAIKU /\
  reason (route router_echo_claude haiku_please) = "User preference" /\
  data_exposure (route router_echo_claude haiku_please)
  = generic_exposure CLAUDE_HAIKU (sensitivity haiku_please).
Proof.
  apply (route_honours_preference router_echo_claude haiku_please CLAUDE_HAIKU);
    reflexivity.
Defined.

Lemma sensitive_never_premium_witness :
  backend (route router_echo_claude churn_question) <> CLAUDE_OPUS /\
  In (backend (route router_echo_claude churn_question))
     [CORTEX; MISTRAL; CLAUDE_SONNET; CLAUDE_HAIKU].
Proof.
  apply (sensitive_never_premium router_echo_claude churn_question).
  - left. reflexivity.
  - reflexivity.
Defined.
End RouterSamples.

(** ** The cost model *)

Section CostFacts.
Import Router Spec.
Implicit Types (b : Backend) (t : Z).

Lemma COSTS_pos b : (0 < COSTS b)%Q.
Proof. destruct b; reflexivity. Qed.

Lemma estimate_cost_nonzero b t :
  t <> 0 -> _estimate_cost b t = (inject_Z t / 1000 * COSTS b)%Q.
Proof.
  intros Ht. unfold _estimate_cost.
  destruct (Z.eqb_spec t 0); [contradiction | reflexivity].
Qed.

(** C4 fails as stated: a token estimate of 0 is costed as 1000 tokens,
    not as max(0, 1) = 1 token; and a negative estimate is costed as it
    stands. *)
Lemma estimate_cost_zero_not_by_max :
  ~ (_estimate_cost CORTEX 0 == cost_by_max CORTEX 0)%Q /\
  ~ (_estimate_cost CORTEX (-5) == cost_by_max CORTEX (-5))%Q.
Proof. split; intros H; vm_compute in H; discriminate H. Qed.

(** C4, as amended: for every backend and every non-negative token
    estimate, the estimated cost is (max(t, 1)/1000) times the unit price
    of the backend, where an estimate of 0 is first replaced by 1000. *)
Theorem estimate_cost_formula b t :
  0 <= t ->
  (_estimate_cost b t ==
   if (t =? 0)%Z then cost_by_max b 1000 else cost_by_max b t)%Q.
Proof.
  intros Ht. unfold _estimate_cost, cost_by_max.
  destruct (Z.eqb_spec t 0) as [-> | Hne].
  - reflexivity.
  - replace (Z.max t 1) with t by lia. reflexivity.
Qed.

Lemma estimate_cost_formula_witness :
  (_estimate_cost CLAUDE_OPUS 2500 == cost_by_max CLAUDE_OPUS 2500)%Q.
Proof. apply (estimate_cost_formula CLAUDE_OPUS 2500). lia. Defined.

(** C5: a token estimate of 0 costs what 1000 tokens cost, and the
    estimated cost of a non-negative token estimate is never negative. *)
Theorem estimate_cost_zero_default b :
  _estimate_cost b 0 = _estimate_cost b 1000 /\
  (forall t, 0 <= t -> (0 <= _estimate_cost b t)%Q).
Proof.
  split; [reflexivity|].
  intros t Ht. unfold _estimate_cost.
  assert (Hpos : 0 <= (if (t =? 0)%Z then 1000 else t))
    by (destruct (t =? 0)%Z; lia).
  apply Qmult_le_0_compat.
  - apply Qle_shift_div_l; [reflexivity|].
    rewrite Qmult_0_l. change 0%Q with (inject_Z 0).
    now rewrite <- Zle_Qle.
  - apply Qlt_le_weak, COSTS_pos.
Qed.

Lemma estimate_cost_zero_default_witness :
  _estimate_cost MISTRAL 0 = _estimate_cost MISTRAL 1000 /\
  (0 <= _estimate_cost MISTRAL 750)%Q.
Proof.
  split.
  - apply (estimate_cost_zero_default MISTRAL).
  - apply (estimate_cost_zero_default MISTRAL). lia.
Defined.
End CostFacts.

(** ** Execution *)

Section ExecuteFacts.
Import Router Spec.
Context {R Store : Type}.
Implicit Types (self : HybridRouter R) (context : QueryContext)
         (w : World Store).

Lemma execute_unfold self context w :
  execute self context w
  = let d := route self context in
    let w1 := snd (datetime_now w) in
    match dispatch self context d with
    | Ok result =>
        let w2 := snd (datetime_now w1) in
        (Succeeded result (value (backend d)) (reason d) (data_exposure d)
           (estimated_cost d)
           (inject_Z (fst (datetime_now w1) - fst (datetime_now w)) / 1000000
            * 1000)%Q,
         w2)
    | Raise e => (Failed (str_exn e) (value (backend d)) (reason d), w1)
    end.
Proof.
  unfold execute, bind, ret. cbn.
  destruct (dispatch self context (route self context)); reflexivity.
Qed.

(** C1, as amended: [execute] always returns an outcome and leaves the
    telemetry object as it found it; when the backend call raises, the
    outcome is the failed one, carrying the text of the exception and the
    routing that was chosen, and when it returns, the outcome is
    successful.  Recording a QueryMetric is not part of [execute]. *)
Theorem execute_outcome self context w :
  telemetry (snd (execute self context w)) = telemetry w /\
  (forall e,
      dispatch self context (route self context) = Raise e ->
      fst (execute self context w)
      = Failed (str_exn e) (value (backend (route self context)))
               (reason (route self context))) /\
  (forall r,
      dispatch self context (route self context) = Ok r ->
      success (fst (execute self context w)) = true).
Proof.
  rewrite execute_unfold. cbv zeta.
  destruct (dispatch self context (route self context)) as [r | e]; cbn.
  - repeat split; intros; congruence.
  - repeat split; intros; congruence.
Qed.
End ExecuteFacts.

Section ExecuteSamples.
Import Router Spec Sample.

(** C1 fails as stated: the Claude client raises, [execute] reports the
    failure, and the telemetry object still holds no metric. *)
Lemma failed_execution_is_not_recorded :
  dispatch router_failing_claude dax_question
    (route router_failing_claude dax_question)
  = Raise (AdapterError "connection reset") /\
  success (fst (execute router_failing_claude dax_question (fresh_world 10000)))
  = false /\
  Metrics.queries
    (telemetry
       (snd (execute router_failing_claude dax_question (fresh_world 10000))))
  = [].
Proof. repeat split. Qed.

Lemma execute_outcome_witness :
  telemetry
    (snd (execute router_failing_claude dax_question (fresh_world 10000)))
  = telemetry (fresh_world 10000) /\
  fst (execute router_failing_claude dax_question (fresh_world 10000))
  = Failed "connection reset" "claude_sonnet"
           "Default balanced option - good accuracy and cost" /\
  success (fst (execute router_echo_claude dax_question (fresh_world 10000)))
  = true.
Proof.
  split; [|split].
  - apply (execute_outcome router_failing_claude dax_question (fresh_world 10000)).
  - apply (proj1 (proj2 (execute_outcome router_failing_claude dax_question
                           (fresh_world 10000)))
             (AdapterError "connection reset")).
    reflexivity.
  - apply (proj2 (proj2 (execute_outcome router_echo_claude dax_question
                           (fresh_world 10000)))
             "Generate DAX for YoY growth").
    reflexivity.
Defined.
End ExecuteSamples.

(** * Properties of the telemetry store *)

Section StoreFacts.
Import Metrics Spec.
Implicit Types (w : World HybridMetrics) (l qs : list QueryMetric).

Lemma lastn_short {A : Type} c (l : list A) :
  (List.length l <= c)%nat -> lastn c l = l.
Proof.
  intros H. unfold lastn. replace (List.length l - c)%nat with 0%nat by lia.
  reflexivity.
Qed.

Lemma length_lastn {A : Type} c (l : list A) :
  List.length (lastn c l) = Nat.min c (List.length l).
Proof. unfold lastn. rewrite length_skipn. lia. Qed.

Lemma lastn_app_lastn {A : Type} c (l r : list A) :
  lastn c (lastn c l ++ r) = lastn c (l ++ r).
Proof.
  destruct (Nat.le_gt_cases (List.length l) c) as [Hle | Hgt].
  - rewrite (lastn_short c l) by assumption. reflexivity.
  - unfold lastn at 1 3. rewrite !length_app, length_lastn.
    unfold lastn.
    replace (Nat.min c (List.length l) + List.length r - c)%nat
      with (List.length r) by lia.
    replace (List.length l + List.length r - c)%nat
      with (List.length r + (List.length l - c))%nat by lia.
    rewrite <- skipn_skipn. f_equal.
    rewrite skipn_app.
    replace (List.length l - c - List.length l)%nat with 0%nat by lia.
    reflexivity.
Qed.

(** The trimming step of [log_query] keeps the last [max_history]
    entries, for a capacity of at least one. *)
Lemma trim_is_lastn (C : Z) l :
  1 <= C ->
  (if len l >? C then slice_from (- C) l else l) = lastn (Z.to_nat C) l.
Proof.
  intros HC. unfold len, slice_from, lastn.
  destruct (Z.gtb_spec (Z.of_nat (List.length l)) C) as [Hgt | Hle].
  - destruct (Z.ltb_spec (- C) 0) as [_ | Hge]; [|lia].
    f_equal. unfold len. lia.
  - replace (List.length l - Z.to_nat C)%nat with 0%nat by lia.
    reflexivity.
Qed.

Lemma log_query_run q s c b ok it lat cost tok uid sid w :
  log_query q s c b ok it lat cost tok uid sid w
  = let metric :=
      {| timestamp := clock w (ticks w); question := q; sensitivity := s;
         complexity := c; backend := b; success := ok; iterations := it;
         latency_ms := lat; estimated_cost := cost; actual_tokens := tok;
         user_id := uid; session_id := sid |} in
    let self := telemetry w in
    let appended := queries self ++ [metric] in
    (metric,
     {| telemetry :=
          {| queries :=
               if len appended >? max_history self
               then slice_from (- max_history self) appended
               else appended;
             max_history := max_history self;
             _total_cost := (_total_cost self + cost)%Q;
             _query_count := _query_count self + 1;
             _success_count :=
               if ok then _success_count self + 1 else _success_count self |};
        clock := clock w;
        ticks := S (ticks w) |}).
Proof. reflexivity. Qed.

Lemma log_all_cons a calls w :
  log_all (a :: calls) w
  = (fst (log_one a w) :: fst (log_all calls (snd (log_one a w))),
     snd (log_all calls (snd (log_one a w)))).
Proof.
  cbn [log_all]. unfold bind, ret.
  destruct (log_one a w) as [m w1]. cbn [fst snd].
  destruct (log_all calls w1) as [ms w2]. reflexivity.
Qed.

Lemma log_one_store a w :
  max_history (telemetry (snd (log_one a w))) = max_history (telemetry w) /\
  (1 <= max_history (telemetry w) ->
   queries (telemetry (snd (log_one a w)))
   = lastn (Z.to_nat (max_history (telemetry w)))
           (queries (telemetry w) ++ [fst (log_one a w)])).
Proof.
  unfold log_one. rewrite log_query_run. cbn. split; [reflexivity|].
  intros HC. now apply trim_is_lastn.
Qed.

(** What the calls return are the metrics they were given, up to the
    time stamp. *)
Lemma log_all_fields calls : forall w,
  map (stamped 0) (fst (log_all calls w)) = map (stamped 0) calls.
Proof.
  induction calls as [| a calls IH]; intros w; [reflexivity|].
  rewrite log_all_cons. cbn [fst map]. rewrite IH. reflexivity.
Qed.

(** After any sequence of calls the store holds the last [max_history]
    of what it held before followed by what the calls logged. *)
Lemma log_all_lastn calls : forall w,
  1 <= max_history (telemetry w) ->
  (List.length (queries (telemetry w))
   <= Z.to_nat (max_history (telemetry w)))%nat ->
  List.length (fst (log_all calls w)) = List.length calls /\
  max_history (telemetry (snd (log_all calls w))) = max_history (telemetry w) /\
  queries (telemetry (snd (log_all calls w)))
  = lastn (Z.to_nat (max_history (telemetry w)))
          (queries (telemetry w) ++ fst (log_all calls w)).
Proof.
  induction calls as [| a calls IH]; intros w HC Hlen.
  - cbn. rewrite app_nil_r, lastn_short by assumption. repeat split.
  - rewrite log_all_cons. cbn [fst snd].
    destruct (log_one_store a w) as [Hmax Hq]. specialize (Hq HC).
    destruct (IH (snd (log_one a w))) as (IH1 & IH2 & IH3).
    + now rewrite Hmax.
    + rewrite Hmax, Hq, length_lastn. lia.
    + cbn [List.length]. rewrite IH1, IH2, IH3, Hmax, Hq. repeat split.
      rewrite lastn_app_lastn, <- app_assoc. reflexivity.
Qed.

(** C6: with a capacity C of at least one, more than C calls of
    [log_query] on a fresh store leave exactly C entries, namely the last
    C that were logged, in the order of the calls; the oldest entry kept
    is the (N - C + 1)-th logged. *)
Theorem store_keeps_last_entries (C : Z) calls w :
  1 <= C ->
  telemetry w = __init__ C ->
  C < len calls ->
  len (fst (log_all calls w)) = len calls /\
  len (queries (telemetry (snd (log_all calls w)))) = C /\
  queries (telemetry (snd (log_all calls w)))
  = skipn (Z.to_nat (len calls - C)) (fst (log_all calls w)) /\
  (exists oldest,
      nth_error (queries (telemetry (snd (log_all calls w)))) 0 = Some oldest /\
      nth_error (fst (log_all calls w)) (Z.to_nat (len calls - C))
      = Some oldest).
Proof.
  intros HC Hinit HN.
  destruct (log_all_lastn calls w) as (Hl & _ & Hq).
  - rewrite Hinit. exact HC.
  - rewrite Hinit. cbn. lia.
  - rewrite Hinit in Hq. cbn [__init__ queries max_history app] in Hq.
    unfold len in *.
    assert (Hskip : queries (telemetry (snd (log_all calls w)))
                    = skipn (Z.to_nat (Z.of_nat (List.length calls) - C))
                            (fst (log_all calls w))).
    { rewrite Hq. unfold lastn. f_equal. lia. }
    assert (Hlen : Z.of_nat (List.length
                      (queries (telemetry (snd (log_all calls w))))) = C).
    { rewrite Hq, length_lastn. lia. }
    repeat split; try assumption; try lia.
    destruct (queries (telemetry (snd (log_all calls w)))) as [| oldest rest] eqn:E.
    + cbn in Hlen. lia.
    + exists oldest. split; [reflexivity|].
      rewrite <- (Nat.add_0_r (Z.to_nat _)), <- nth_error_skipn, <- Hskip.
      reflexivity.
Qed.
End StoreFacts.

Section StoreSamples.
Import Metrics Spec Sample.

Lemma store_keeps_last_entries_witness :
  len (queries (telemetry (snd (log_all (ten_simple 3) (fresh_world 4))))) = 4 /\
  queries (telemetry (snd (log_all (ten_simple 3) (fresh_world 4))))
  = skipn 6 (fst (log_all (ten_simple 3) (fresh_world 4))).
Proof.
  destruct (store_keeps_last_entries 4 (ten_simple 3) (fresh_world 4))
    as (_ & Hlen & Hkept & _).
  - lia.
  - reflexivity.
  - reflexivity.
  - split; [exact Hlen | exact Hkept].
Defined.
End StoreSamples.

(** * Properties of the recommendation engine *)

Section NumberFacts.
Lemma Qgtb_true (a b : Q) : Qgtb a b = true <-> (b < a)%Q.
Proof.
  unfold Qgtb. rewrite negb_true_iff, <- not_true_iff_false, Qle_bool_iff.
  split; [apply Qnot_le_lt | apply Qlt_not_le].
Qed.

Lemma py_div_ok (a b : Q) : ~ (b == 0)%Q -> py_div a b = Ok (a / b)%Q.
Proof.
  intros Hb. unfold py_div.
  destruct (Qeq_bool b 0) eqn:E; [|reflexivity].
  apply Qeq_bool_iff in E. contradiction.
Qed.

Lemma len_nonzero {A : Type} (l : list A) :
  l <> [] -> ~ (inject_Z (len l) == 0)%Q.
Proof.
  intros Hl H. destruct l as [| x l]; [congruence|].
  unfold len, Qeq in H. cbn in H. lia.
Qed.

Lemma len_pos {A : Type} (l : list A) : l <> [] -> (0 < inject_Z (len l))%Q.
Proof.
  intros Hl. destruct l as [| x l]; [congruence|].
  unfold len, Qlt. cbn. lia.
Qed.

Lemma fold_Qplus_bound (c : Q) (l : list Q) : forall a,
  Forall (fun x => (x <= c)%Q) l ->
  (fold_left Qplus l a <= a + c * inject_Z (len l))%Q.
Proof.
  induction l as [| x l IH]; intros a Hall.
  - cbn. unfold len. cbn. rewrite Qmult_0_r, Qplus_0_r. apply Qle_refl.
  - inversion Hall as [| ? ? Hx Hl]; subst. cbn [fold_left].
    eapply Qle_trans; [apply IH; assumption|].
    unfold len. cbn [List.length]. rewrite Nat2Z.inj_succ, <- Z.add_1_r.
    rewrite inject_Z_plus.
    generalize (inject_Z (Z.of_nat (List.length l))). intros n.
    change (inject_Z 1) with 1%Q. nra.
Qed.

(** A mean above a bound needs an element above it. *)
Lemma mean_above_has_element (c : Q) (l : list Q) :
  l <> [] ->
  (c < sumQ l / inject_Z (len l))%Q ->
  exists x, In x l /\ (c < x)%Q.
Proof.
  intros Hl Hmean.
  destruct (Exists_dec (fun x => (c < x)%Q) l) as [Hex | Hno].
  - intros x. destruct (Qlt_le_dec c x); [left | right];
      [assumption | now apply Qle_not_lt].
  - apply Exists_exists in Hex. exact Hex.
  - exfalso. apply Forall_Exists_neg in Hno.
    assert (Hall : Forall (fun x => (x <= c)%Q) l).
    { eapply Forall_impl; [|exact Hno]. intros x. apply Qnot_lt_le. }
    pose proof (fold_Qplus_bound c l 0 Hall) as Hb.
    rewrite Qplus_0_l in Hb.
    apply Qlt_not_le in Hmean. apply Hmean.
    apply Qle_shift_div_r; [now apply len_pos | exact Hb].
Qed.
End NumberFacts.

Section ContainerFacts.
Context {V : Type}.
Implicit Types (d : list (string * V)).

Lemma dd_update_nonempty (dflt : V) upd k d : dd_update dflt upd k d <> [].
Proof.
  destruct d as [| [k' v] d]; cbn; [discriminate|].
  destruct (k' =? k)%string; discriminate.
Qed.

Lemma dd_update_Forall (P : V -> Prop) (dflt : V) upd k d :
  (forall v, P (upd v)) ->
  Forall (fun kv => P (snd kv)) d ->
  Forall (fun kv => P (snd kv)) (dd_update dflt upd k d).
Proof.
  intros Hupd. induction d as [| [k' v] d IH]; intros Hd; cbn.
  - constructor; [apply Hupd | constructor].
  - inversion Hd as [| ? ? Hv Hrest]; subst.
    destruct (k' =? k)%string; constructor; cbn; auto.
Qed.

Lemma max_from_ok {A : Type} (key : A -> result Q) (l : list A) :
  Forall (fun x => exists k, key x = Ok k) l ->
  forall best kbest,
  exists y, max_from key best kbest l = Ok y /\ In y (best :: l).
Proof.
  induction l as [| x l IH]; intros Hall best kbest.
  - exists best. split; [reflexivity | now left].
  - inversion Hall as [| ? ? [k Hk] Hl]; subst.
    cbn [max_from]. rewrite Hk. cbn [rbind].
    destruct (Qgtb k kbest).
    + destruct (IH Hl x k) as (y & Hy & Hin). exists y. split; [exact Hy|].
      right. exact Hin.
    + destruct (IH Hl best kbest) as (y & Hy & Hin). exists y.
      split; [exact Hy|]. destruct Hin as [<- | Hin]; [now left|].
      right. now right.
Qed.

Lemma py_max_ok {A : Type} (key : A -> result Q) (l : list A) :
  l <> [] ->
  Forall (fun x => exists k, key x = Ok k) l ->
  exists y, py_max key l = Ok y /\ In y l.
Proof.
  intros Hl Hall. destruct l as [| x l]; [congruence|].
  inversion Hall as [| ? ? [k Hk] Hrest]; subst.
  cbn [py_max]. rewrite Hk. cbn [rbind]. now apply max_from_ok.
Qed.
End ContainerFacts.

Section RecommendationFacts.
Import Metrics Spec.
Implicit Types (self : HybridMetrics) (recent : list QueryMetric)
         (recs : list Recommendation).

Lemma slow_backends_values recent : forall d,
  Forall (fun kv => snd kv <> []) d ->
  Forall (fun kv : string * list Q => snd kv <> [])
    (fold_left
       (fun d q =>
          if Qgtb (latency_ms q) 5000
          then dd_update [] (fun v => v ++ [latency_ms q]) (backend q) d
          else d)
       recent d).
Proof.
  induction recent as [| q recent IH]; intros d Hd; cbn [fold_left].
  - exact Hd.
  - apply IH. destruct (Qgtb (latency_ms q) 5000); [|exact Hd].
    apply (dd_update_Forall (fun v => v <> [])); [|exact Hd].
    intros v. destruct v; discriminate.
Qed.

Lemma slow_backends_nonempty recent : forall d,
  d <> [] \/ (exists q, In q recent /\ Qgtb (latency_ms q) 5000 = true) ->
  fold_left
    (fun d q =>
       if Qgtb (latency_ms q) 5000
       then dd_update [] (fun v => v ++ [latency_ms q]) (backend q) d
       else d)
    recent d <> [].
Proof.
  induction recent as [| q recent IH]; intros d H; cbn [fold_left].
  - destruct H as [H | (q & [] & _)]. exact H.
  - apply IH. destruct (Qgtb (latency_ms q) 5000) eqn:E.
    + left. apply dd_update_nonempty.
    + destruct H as [H | (q' & [<- | Hin] & Hq')].
      * now left.
      * congruence.
      * right. now exists q'.
Qed.

Lemma cost_by_backend_nonempty qs :
  qs <> [] -> cost_by_backend_of qs <> [].
Proof.
  unfold cost_by_backend_of. destruct qs as [| q qs]; [congruence|].
  intros _. cbn [fold_left]. generalize (dd_update_nonempty 0%Q
    (fun v => (v + estimated_cost q)%Q) (backend q) []).
  generalize (dd_update 0%Q (fun v => (v + estimated_cost q)%Q) (backend q) []).
  induction qs as [| q' qs IH]; intros d Hd; cbn [fold_left].
  - exact Hd.
  - apply IH, dd_update_nonempty.
Qed.

Lemma mean_of_ok (x : string * list Q) :
  snd x <> [] -> exists k, mean_of x = Ok k.
Proof.
  intros Hx. unfold mean_of. rewrite py_div_ok by now apply len_nonzero.
  eauto.
Qed.

Lemma recent_of_nonempty self : queries self <> [] -> recent_of self <> [].
Proof.
  unfold recent_of. intros Hq.
  destruct (Z.geb_spec (len (queries self)) 100) as [Hge | Hlt]; [|exact Hq].
  unfold slice_from. cbn [Z.ltb Z.compare]. intros H.
  apply skipn_all_iff in H. unfold len in *. lia.
Qed.

(** Each check returns, and keeps what was collected before it. *)
Lemma check_failure_rate_ok recent recs :
  recent <> [] ->
  exists more, check_failure_rate recent recs = Ok (recs ++ more).
Proof.
  intros Hr. unfold check_failure_rate.
  rewrite py_div_ok by now apply len_nonzero. cbn [rbind].
  match goal with |- context [if ?c then _ else _] => destruct c end.
  - eexists. reflexivity.
  - exists []. now rewrite app_nil_r.
Qed.

Lemma check_latency_ok recent recs :
  recent <> [] ->
  exists more, check_latency recent recs = Ok (recs ++ more).
Proof.
  intros Hr. unfold check_latency.
  rewrite py_div_ok by now apply len_nonzero. cbn [rbind].
  destruct (Qgtb _ 5000) eqn:Havg; [|exists []; now rewrite app_nil_r].
  apply Qgtb_true in Havg.
  assert (Hlen : len (map latency_ms recent) = len recent)
    by (unfold len; now rewrite length_map).
  rewrite <- Hlen in Havg.
  apply mean_above_has_element in Havg;
    [|destruct recent; [congruence | discriminate]].
  destruct Havg as (x & Hin & Hx). apply in_map_iff in Hin.
  destruct Hin as (q & <- & Hq).
  assert (Hvals : Forall (fun kv : string * list Q => snd kv <> [])
                         (slow_backends_of recent))
    by (apply slow_backends_values; constructor).
  destruct (py_max_ok mean_of (slow_backends_of recent))
    as (slowest & Hmax & Hin).
  - apply slow_backends_nonempty. right. exists q. split; [exact Hq|].
    now apply Qgtb_true.
  - eapply Forall_impl; [|exact Hvals]. intros kv. apply mean_of_ok.
  - rewrite Hmax. cbn [rbind].
    rewrite Forall_forall in Hvals.
    destruct (mean_of_ok slowest (Hvals _ Hin)) as (k & Hk).
    rewrite Hk. cbn [rbind]. eexists. reflexivity.
Qed.

Lemma check_cost_distribution_ok self recs :
  queries self <> [] ->
  exists more, check_cost_distribution self recs = Ok (recs ++ more).
Proof.
  intros Hq. unfold check_cost_distribution.
  destruct (Qgtb (_total_cost self) 0) eqn:Htot;
    [|exists []; now rewrite app_nil_r].
  destruct (py_max_ok (fun x : string * Q => Ok (snd x))
              (cost_by_backend_of (queries self))) as (top & Hmax & _).
  - now apply cost_by_backend_nonempty.
  - apply Forall_forall. intros x _. eauto.
  - rewrite Hmax. cbn [rbind].
    destruct (Qgtb (snd top) _); [|exists []; now rewrite app_nil_r].
    rewrite py_div_ok.
    + cbn [rbind]. eexists. reflexivity.
    + apply Qgtb_true in Htot. intros H. rewrite H in Htot.
      now apply Qlt_irrefl in Htot.
Qed.

Lemma check_iterative_api_ok self recs :
  exists more, check_iterative_api self recs = recs ++ more.
Proof.
  unfold check_iterative_api.
  destruct (filter is_iterative_api (queries self)).
  - exists []. now rewrite app_nil_r.
  - eexists. reflexivity.
Qed.
End RecommendationFacts.

Section RecommendationClaims.
Import Metrics Spec.
Implicit Types (self : HybridMetrics) (recs : list Recommendation).

(** The advisory of the cost check. *)
Lemma check_simple_expensive_fires self recs :
  (inject_Z (len (simple_queries self)) * (3 # 10)
   < inject_Z (len (expensive_simple self)))%Q ->
  check_simple_expensive self recs
  = Ok (recs ++
        [ {| type := "cost_optimization";
             message :=
               [ Int (len (expensive_simple self));
                 Lit " simple queries (";
                 Fixed 0 (inject_Z (len (expensive_simple self))
                          / inject_Z (len (simple_queries self)) * 100)%Q;
                 Lit "%) are using expensive models. Route to Haiku or Cortex to save ~80%." ];
             impact :=
               [ Lit "~$";
                 Fixed 2 (sumQ (map estimated_cost (expensive_simple self))
                          * (8 # 10))%Q;
                 Lit " potential savings" ] |} ]).
Proof.
  unfold expensive_simple, simple_queries, check_simple_expensive.
  intros Hshare.
  destruct (filter is_simple (queries self)) as [| q qs] eqn:Hsimple.
  - exfalso. vm_compute in Hshare. discriminate Hshare.
  - apply Qgtb_true in Hshare. rewrite Hshare.
    rewrite py_div_ok by (apply len_nonzero; discriminate).
    reflexivity.
Qed.

(** C7, as amended: when the store holds at least 10 metrics and strictly
    more than 30% of the simple-complexity ones ran on claude_opus or
    claude_sonnet, [get_recommendations] returns a list containing a
    cost_optimization advisory whose impact quotes 80% of the summed
    estimated cost of those metrics. *)
Theorem premium_simple_share_advisory self :
  10 <= len (queries self) ->
  (inject_Z (len (simple_queries self)) * (3 # 10)
   < inject_Z (len (expensive_simple self)))%Q ->
  exists recs r,
    get_recommendations self = Ok recs /\
    In r recs /\
    type r = "cost_optimization" /\
    impact r
    = [ Lit "~$";
        Fixed 2 (sumQ (map estimated_cost (expensive_simple self)) * (8 # 10))%Q;
        Lit " potential savings" ].
Proof.
  intros Hten Hshare. unfold get_recommendations.
  destruct (Z.ltb_spec (len (queries self)) 10) as [Hlt | _]; [lia|].
  assert (Hq : queries self <> []).
  { intros E. rewrite E in Hten. cbn in Hten. lia. }
  rewrite (check_simple_expensive_fires self [] Hshare). cbn [rbind app].
  match goal with |- context [check_iterative_api self [?a]] => set (adv := a) end.
  destruct (check_iterative_api_ok self [adv]) as (m1 & ->).
  destruct (check_failure_rate_ok (recent_of self) ([adv] ++ m1)
              (recent_of_nonempty self Hq)) as (m2 & ->).
  cbn [rbind].
  destruct (check_latency_ok (recent_of self) (([adv] ++ m1) ++ m2)
              (recent_of_nonempty self Hq)) as (m3 & ->).
  cbn [rbind].
  destruct (check_cost_distribution_ok self ((([adv] ++ m1) ++ m2) ++ m3) Hq)
    as (m4 & ->).
  cbn [rbind app].
  eexists. exists adv. split; [reflexivity|].
  split; [now left|]. split; reflexivity.
Qed.

(** C8, as amended: with fewer than 10 metrics in the store,
    [get_recommendations] returns exactly one advisory, of type "info",
    saying that more data is needed. *)
Theorem few_samples_single_advisory self :
  len (queries self) < 10 ->
  get_recommendations self
  = Ok [ {| type := "info";
            message := [ Lit "Need more data for recommendations" ];
            impact := [ Lit "N/A" ] |} ].
Proof.
  intros Hfew. unfold get_recommendations.
  destruct (Z.ltb_spec (len (queries self)) 10) as [_ | Hge]; [reflexivity | lia].
Qed.
End RecommendationClaims.

Section RecommendationSamples.
Import Metrics Spec Sample.

(** C7 fails as stated: ten simple queries, three of them (exactly 30%)
    on claude_opus, give no cost_optimization advisory. *)
Lemma exact_thirty_percent_no_advisory :
  10 <= len (queries (store_after (ten_simple 3))) /\
  (inject_Z (len (simple_queries (store_after (ten_simple 3)))) * (3 # 10)
   <= inject_Z (len (expensive_simple (store_after (ten_simple 3)))))%Q /\
  get_recommendations (store_after (ten_simple 3))
  = Ok [ {| type := "info";
            message := [ Lit "No optimization opportunities identified. Current routing is efficient." ];
            impact := [ Lit "N/A" ] |} ].
Proof.
  split; [vm_compute; discriminate|].
  split; [vm_compute; discriminate|].
  vm_compute. reflexivity.
Qed.

Lemma premium_simple_share_advisory_witness :
  exists recs r,
    get_recommendations (store_after (ten_simple 4)) = Ok recs /\
    In r recs /\
    type r = "cost_optimization" /\
    impact r
    = [ Lit "~$";
        Fixed 2 (sumQ (map estimated_cost
                         (expensive_simple (store_after (ten_simple 4))))
                 * (8 # 10))%Q;
        Lit " potential savings" ].
Proof.
  apply (premium_simple_share_advisory (store_after (ten_simple 4))).
  - vm_compute. discriminate.
  - vm_compute. reflexivity.
Defined.

(** C8 fails as stated: the single advisory of a store with too few
    metrics has the type "info". *)
Lemma few_samples_advisory_type :
  len (queries (Metrics.__init__ 10000)) < 10 /\
  exists r,
    get_recommendations (Metrics.__init__ 10000) = Ok [r] /\
    type r = "info" /\
    type r <> "insufficient data".
Proof.
  split; [reflexivity|]. eexists. split; [reflexivity|].
  split; [reflexivity | discriminate].
Qed.

Lemma few_samples_single_advisory_witness :
  get_recommendations (Metrics.__init__ 10000)
  = Ok [ {| type := "info";
            message := [ Lit "Need more data for recommendations" ];
            impact := [ Lit "N/A" ] |} ].
Proof.
  apply (few_samples_single_advisory (Metrics.__init__ 10000)).
  reflexivity.
Defined.
End RecommendationSamples.

(** * Further properties of the router *)

Section RouterMore.
Import Router Spec.
Context {R : Type}.
Implicit Types (self : HybridRouter R) (context : QueryContext) (b : Backend).

Lemma route_rules_without_preference self context :
  route_rules self (without_preference context) = route_rules self context.
Proof. reflexivity. Qed.

(** X1: a preference for a backend that is not available raises nothing
    and changes nothing: the decision is the one the same context gets
    without a preference. *)
Theorem unavailable_preference_is_ignored self context b :
  user_preference context = Some b ->
  _is_backend_available self b = false ->
  route self context = route self (without_preference context).
Proof.
  intros Hp Hav. unfold route. rewrite Hp, Hav. cbn [without_preference user_preference].
  symmetry. apply route_rules_without_preference.
Qed.

Lemma estimate_cost_nonneg b (t : Z) : 0 <= t -> (0 <= _estimate_cost b t)%Q.
Proof.
  intros Ht. unfold _estimate_cost.
  assert (Hpos : 0 <= (if (t =? 0)%Z then 1000 else t))
    by (destruct (t =? 0)%Z; lia).
  apply Qmult_le_0_compat.
  - apply Qle_shift_div_l; [reflexivity|].
    rewrite Qmult_0_l. change 0%Q with (inject_Z 0).
    now rewrite <- Zle_Qle.
  - destruct b; discriminate.
Qed.

(** X2: whatever rule decides, the estimated cost in the decision is the
    cost of the backend the decision names, for the token estimate of the
    context; it is not negative when that estimate is not. *)
Theorem route_cost_is_cost_of_named_backend self context :
  estimated_cost (route self context)
  = _estimate_cost (backend (route self context)) (estimated_tokens context) /\
  (0 <= estimated_tokens context ->
   (0 <= estimated_cost (route self context))%Q).
Proof.
  assert (Heq : estimated_cost (route self context)
                = _estimate_cost (backend (route self context))
                                 (estimated_tokens context)).
  { unfold route, route_rules.
    destruct (user_preference context) as [preferred|];
      [destruct (_is_backend_available self preferred)|];
      try reflexivity;
      destruct (is_snowflake context), (requires_iteration context),
        (enable_cortex self), (enable_mistral self),
        (sensitivity context), (complexity context); reflexivity. }
  split; [exact Heq|].
  intros Ht. rewrite Heq. now apply estimate_cost_nonneg.
Qed.

(** X3: a decision that names Cortex or Mistral always has exposure
    "full"; the exposure is one of "schema_only", "aggregated" and "full"
    (never "none"); and a Claude tier gets "full" only as an honoured
    preference on public data. *)
Theorem route_exposure_by_capability self context :
  (full_data_capable (backend (route self context)) = true ->
   data_exposure (route self context) = "full") /\
  In (data_exposure (route self context)) ["schema_only"; "aggregated"; "full"] /\
  (full_data_capable (backend (route self context)) = false ->
   data_exposure (route self context) = "full" ->
   user_preference context = Some (backend (route self context)) /\
   sensitivity context = PUBLIC).
Proof.
  unfold route.
  destruct (user_preference context) as [preferred|];
    [destruct (_is_backend_available self preferred)|].
  - cbn [backend data_exposure].
    destruct preferred, (sensitivity context); cbn;
      repeat split; auto; try discriminate; tauto.
  - destruct (route_rules_cases self context)
      as [(Hb & _ & He) | [(Hb & _ & He & _) | [([Hb | Hb] & He) | (Hb & _ & [He | He])]]];
      rewrite Hb, He; cbn; repeat split; auto; try discriminate; tauto.
  - destruct (route_rules_cases self context)
      as [(Hb & _ & He) | [(Hb & _ & He & _) | [([Hb | Hb] & He) | (Hb & _ & [He | He])]]];
      rewrite Hb, He; cbn; repeat split; auto; try discriminate; tauto.
Qed.

Lemma route_safe_backend_enabled self context :
  (backend (route self context) = CORTEX -> enable_cortex self = true) /\
  (backend (route self context) = MISTRAL -> enable_mistral self = true).
Proof.
  unfold route.
  destruct (user_preference context) as [preferred|];
    [destruct (_is_backend_available self preferred) eqn:Hav|].
  - cbn [backend]. split; intros ->; exact Hav.
  - destruct (route_rules_cases self context)
      as [(Hb & Hon & _) | [(Hb & Hon & _) | [([Hb | Hb] & _) | (Hb & _)]]];
      rewrite Hb; split; intros; congruence.
  - destruct (route_rules_cases self context)
      as [(Hb & Hon & _) | [(Hb & Hon & _) | [([Hb | Hb] & _) | (Hb & _)]]];
      rewrite Hb; split; intros; congruence.
Qed.

(** X4: on a router built by [__init__], a decision for Cortex (Mistral)
    always finds the Cortex (Mistral) client: [execute] hands the question
    to it, Cortex with three iterations when iteration is required and one
    otherwise, Mistral with the data included. *)
Theorem safe_backend_has_its_client
    (cortex_client : option (CortexClient R))
    (mistral_client : option (MistralClient R))
    (claude_client : option (ClaudeClient R))
    (cortex_on mistral_on : bool) context :
  let self :=
    __init__ cortex_client mistral_client claude_client cortex_on mistral_on in
  (backend (route self context) = CORTEX ->
   exists client,
     cortex_client = Some client /\
     dispatch self context (route self context)
     = execute_with_iteration client (question context)
         (if requires_iteration context then 3 else 1)) /\
  (backend (route self context) = MISTRAL ->
   exists client,
     mistral_client = Some client /\
     dispatch self context (route self context)
     = generate_with_refinement client (question context) true).
Proof.
  intros self.
  destruct (route_safe_backend_enabled self context) as [Hc Hm].
  split; intros Hb.
  - specialize (Hc Hb). unfold dispatch. rewrite Hb.
    subst self. cbn in Hc |- *. apply andb_true_iff in Hc as [_ Hc].
    destruct cortex_client as [client|]; [|discriminate].
    exists client. split; reflexivity.
  - specialize (Hm Hb). unfold dispatch. rewrite Hb.
    subst self. cbn in Hm |- *. apply andb_true_iff in Hm as [_ Hm].
    destruct mistral_client as [client|]; [|discriminate].
    exists client. split; reflexivity.
Qed.

(** X5: when no Claude client is configured and the decision names a
    Claude tier, [execute] reads the clock once and returns the failed
    outcome with the message "Claude client not configured". *)
Theorem execute_without_claude_client {Store : Type} self context
        (w : World Store) :
  claude self = None ->
  full_data_capable (backend (route self context)) = false ->
  execute self context w
  = (Failed "Claude client not configured"
            (value (backend (route self context)))
            (reason (route self context)),
     {| telemetry := telemetry w; clock := clock w; ticks := S (ticks w) |}).
Proof.
  intros Hnone Hremote. rewrite execute_unfold. cbv zeta.
  assert (Hd : dispatch self context (route self context)
               = Raise (RuntimeError "Claude client not configured")).
  { unfold dispatch, _execute_claude. rewrite Hnone.
    destruct (backend (route self context)); try discriminate; reflexivity. }
  rewrite Hd. reflexivity.
Qed.

(** X6: a confidential or restricted question that goes to a Claude tier
    is handed to the Claude client with the model of that tier and the
    exposure level "schema_only". *)
Theorem sensitive_call_to_claude_is_schema_only self context client :
  sensitivity context = CONFIDENTIAL \/ sensitivity context = RESTRICTED ->
  claude self = Some client ->
  full_data_capable (backend (route self context)) = false ->
  exists model,
    model_map (backend (route self context)) = Some model /\
    dispatch self context (route self context)
    = generate client (question context) model "schema_only".
Proof.
  intros Hs%sensitive_cases Hc Hremote.
  assert (He : data_exposure (route self context) = "schema_only").
  { revert Hremote. unfold route.
    destruct (user_preference context) as [preferred|];
      [destruct (_is_backend_available self preferred)|].
    - cbn [backend data_exposure]. intros Hremote.
      now apply get_data_exposure_api.
    - destruct (route_rules_cases self context)
        as [(Hb & _ & He) | [(Hb & _ & He & _) | [([Hb | Hb] & He) | (Hb & Hn & _)]]];
        rewrite Hb; cbn; intros; congruence.
    - destruct (route_rules_cases self context)
        as [(Hb & _ & He) | [(Hb & _ & He & _) | [([Hb | Hb] & He) | (Hb & Hn & _)]]];
        rewrite Hb; cbn; intros; congruence. }
  unfold dispatch, _execute_claude. rewrite Hc, He.
  destruct (backend (route self context)); try discriminate;
    eexists; split; reflexivity.
Qed.

(** X7: the latency reported by a successful [execute] is the difference
    of the two clock readings around the backend call, in milliseconds;
    it is not negative when the clock does not run backwards. *)
Theorem execute_latency {Store : Type} self context (w : World Store) lat :
  latency_of (fst (execute self context w)) = Some lat ->
  (lat == inject_Z (clock w (S (ticks w)) - clock w (ticks w)) / 1000)%Q /\
  (clock w (ticks w) <= clock w (S (ticks w)) -> (0 <= lat)%Q).
Proof.
  rewrite execute_unfold. cbv zeta.
  destruct (dispatch self context (route self context)) as [r | e];
    cbn; [|discriminate].
  intros [= <-].
  set (dt := clock w (S (ticks w)) - clock w (ticks w)).
  assert (Heq : (inject_Z dt / 1000000 * 1000 == inject_Z dt / 1000)%Q)
    by (field; discriminate).
  split; [exact Heq|].
  intros Hmono. rewrite Heq.
  apply Qle_shift_div_l; [reflexivity|].
  rewrite Qmult_0_l. change 0%Q with (inject_Z 0).
  rewrite <- Zle_Qle. subst dt. lia.
Qed.
End RouterMore.

Section QuickRoute.
Import Router Spec.

Lemma DataSensitivity_of_cases (v : string) :
  (In v ["public"; "internal"; "confidential"; "restricted"] /\
   exists s, DataSensitivity_of v = Ok s) \/
  (~ In v ["public"; "internal"; "confidential"; "restricted"] /\
   exists msg, DataSensitivity_of v = Raise (ValueError msg)).
Proof.
  unfold DataSensitivity_of.
  destruct (String.eqb_spec v "public") as [-> | H1];
    [left; cbn; eauto 6|].
  destruct (String.eqb_spec v "internal") as [-> | H2];
    [left; cbn; eauto 6|].
  destruct (String.eqb_spec v "confidential") as [-> | H3];
    [left; cbn; eauto 6|].
  destruct (String.eqb_spec v "restricted") as [-> | H4];
    [left; cbn; eauto 7|].
  right. split; [|eauto]. cbn. intros [E | [E | [E | [E | []]]]]; congruence.
Qed.

Lemma QueryComplexity_of_cases (v : string) :
  (In v ["simple"; "moderate"; "complex"] /\
   exists c, QueryComplexity_of v = Ok c) \/
  (~ In v ["simple"; "moderate"; "complex"] /\
   exists msg, QueryComplexity_of v = Raise (ValueError msg)).
Proof.
  unfold QueryComplexity_of.
  destruct (String.eqb_spec v "simple") as [-> | H1];
    [left; cbn; eauto 6|].
  destruct (String.eqb_spec v "moderate") as [-> | H2];
    [left; cbn; eauto 6|].
  destruct (String.eqb_spec v "complex") as [-> | H3];
    [left; cbn; eauto 6|].
  right. split; [|eauto]. cbn. intros [E | [E | [E | []]]]; congruence.
Qed.

(** X8: [quick_route] never recommends Cortex or Mistral, not even for
    Snowflake data that needs iteration: the router it builds has no
    client, so both are disabled and the answer is the Claude tier fixed
    by sensitivity and complexity alone. *)
Theorem quick_route_is_remote_only
        (question data_source sensitivity complexity : string)
        (needs_iteration : bool) s c :
  DataSensitivity_of sensitivity = Ok s ->
  QueryComplexity_of complexity = Ok c ->
  quick_route question data_source sensitivity complexity needs_iteration
  = Ok (value (remote_tier s c)) /\
  full_data_capable (remote_tier s c) = false.
Proof.
  intros Hs Hc. unfold quick_route. rewrite Hs, Hc. cbn [rbind].
  unfold route, route_rules, is_snowflake. cbn.
  destruct (data_source =? "snowflake")%string, needs_iteration, s, c;
    split; reflexivity.
Qed.

(** X9: [quick_route] answers exactly when the sensitivity and the
    complexity are spelled as values of their enumerations; any other
    spelling raises a ValueError. *)
Theorem quick_route_validates_its_arguments
        (question data_source sensitivity complexity : string)
        (needs_iteration : bool) :
  (In sensitivity ["public"; "internal"; "confidential"; "restricted"] /\
   In complexity ["simple"; "moderate"; "complex"] ->
   exists v,
     quick_route question data_source sensitivity complexity needs_iteration
     = Ok v) /\
  (~ (In sensitivity ["public"; "internal"; "confidential"; "restricted"] /\
      In complexity ["simple"; "moderate"; "complex"]) ->
   exists msg,
     quick_route question data_source sensitivity complexity needs_iteration
     = Raise (ValueError msg)).
Proof.
  unfold quick_route.
  destruct (DataSensitivity_of_cases sensitivity)
    as [(Hs & s & ->) | (Hs & m & ->)]; cbn [rbind].
  - destruct (QueryComplexity_of_cases complexity)
      as [(Hc & c & ->) | (Hc & m & ->)]; cbn [rbind].
    + split; [eauto | tauto].
    + split; [tauto | eauto].
  - split; [tauto | eauto].
Qed.
End QuickRoute.

Section RouterMoreSamples.
Import Router Spec Sample.

Lemma unavailable_preference_is_ignored_witness :
  route router_without_clients opus_please
  = route router_without_clients (without_preference opus_please).
Proof.
  apply (unavailable_preference_is_ignored router_without_clients opus_please
           CLAUDE_OPUS); reflexivity.
Defined.

Lemma route_cost_is_cost_of_named_backend_witness :
  (0 <= estimated_cost (route router_echo_claude opus_please))%Q.
Proof.
  apply (route_cost_is_cost_of_named_backend router_echo_claude opus_please).
  cbn. lia.
Defined.

Lemma route_exposure_by_capability_witness :
  data_exposure (route router_with_cortex churn_question) = "full".
Proof.
  apply (route_exposure_by_capability router_with_cortex churn_question).
  reflexivity.
Defined.

Lemma safe_backend_has_its_client_witness :
  exists client,
    Some cortex_stub = Some client /\
    dispatch router_with_cortex churn_question
      (route router_with_cortex churn_question)
    = execute_with_iteration client (question churn_question)
        (if requires_iteration churn_question then 3 else 1).
Proof.
  apply (safe_backend_has_its_client (Some cortex_stub) None (Some echo_claude)
           true true churn_question).
  reflexivity.
Defined.

Lemma execute_without_claude_client_witness :
  execute router_without_clients churn_question (fresh_world 10000)
  = (Failed "Claude client not configured"
            (value (backend (route router_without_clients churn_question)))
            (reason (route router_without_clients churn_question)),
     {| telemetry := telemetry (fresh_world 10000);
        clock := clock (fresh_world 10000);
        ticks := S (ticks (fresh_world 10000)) |}).
Proof.
  apply (execute_without_claude_client router_without_clients churn_question
           (fresh_world 10000)); reflexivity.
Defined.

Lemma sensitive_call_to_claude_is_schema_only_witness :
  exists model,
    model_map (backend (route router_echo_claude churn_question)) = Some model /\
    dispatch router_echo_claude churn_question
      (route router_echo_claude churn_question)
    = generate echo_claude (question churn_question) model "schema_only".
Proof.
  apply (sensitive_call_to_claude_is_schema_only router_echo_claude
           churn_question echo_claude).
  - left. reflexivity.
  - reflexivity.
  - reflexivity.
Defined.

Lemma execute_latency_witness :
  (inject_Z (1000 - 0) / 1000000 * 1000
   == inject_Z
        (clock (fresh_world 10000) (S (ticks (fresh_world 10000)))
         - clock (fresh_world 10000) (ticks (fresh_world 10000))) / 1000)%Q /\
  (0 <= inject_Z (1000 - 0) / 1000000 * 1000)%Q.
Proof.
  destruct (execute_latency router_echo_claude dax_question (fresh_world 10000)
              (inject_Z (1000 - 0) / 1000000 * 1000)%Q eq_refl)
    as [Hvalue Hsign].
  split; [exact Hvalue|]. apply Hsign. cbn. lia.
Defined.

Lemma quick_route_is_remote_only_witness :
  quick_route "Analyze customer churn patterns" "snowflake" "confidential"
              "complex" true
  = Ok (value (remote_tier CONFIDENTIAL COMPLEX)) /\
  full_data_capable (remote_tier CONFIDENTIAL COMPLEX) = false.
Proof.
  apply (quick_route_is_remote_only "Analyze customer churn patterns"
           "snowflake" "confidential" "complex" true CONFIDENTIAL COMPLEX);
    reflexivity.
Defined.

Lemma quick_route_validates_its_arguments_witness :
  (exists v, quick_route "Top 10 customers" "snowflake" "internal" "simple" false
             = Ok v) /\
  (exists msg, quick_route "Top 10 customers" "snowflake" "secret" "simple" false
               = Raise (ValueError msg)).
Proof.
  split.
  - apply (quick_route_validates_its_arguments "Top 10 customers" "snowflake"
             "internal" "simple" false).
    cbn. tauto.
  - apply (quick_route_validates_its_arguments "Top 10 customers" "snowflake"
             "secret" "simple" false).
    cbn. intros [[H | [H | [H | [H | []]]]] _]; discriminate.
Defined.
End RouterMoreSamples.

(** * Further properties of the telemetry store *)

Section StoreMore.
Import Metrics Spec.
Implicit Types (w : World HybridMetrics) (calls : list QueryMetric).

Lemma log_one_counters a w :
  _query_count (telemetry (snd (log_one a w)))
  = _query_count (telemetry w) + 1 /\
  _success_count (telemetry (snd (log_one a w)))
  = _success_count (telemetry w) + (if success a then 1 else 0) /\
  _total_cost (telemetry (snd (log_one a w)))
  = (_total_cost (telemetry w) + estimated_cost a)%Q.
Proof.
  unfold log_one. rewrite log_query_run. cbn.
  repeat split. destruct (success a); lia.
Qed.

Lemma log_all_counters calls : forall w,
  _query_count (telemetry (snd (log_all calls w)))
  = _query_count (telemetry w) + len calls /\
  _success_count (telemetry (snd (log_all calls w)))
  = _success_count (telemetry w) + len (filter success calls) /\
  _total_cost (telemetry (snd (log_all calls w)))
  = fold_left Qplus (map estimated_cost calls) (_total_cost (telemetry w)).
Proof.
  induction calls as [| a calls IH]; intros w.
  - cbn. unfold len. cbn. repeat split; lia.
  - rewrite log_all_cons. cbn [snd].
    destruct (log_one_counters a w) as (Hn & Hs & Hc).
    destruct (IH (snd (log_one a w))) as (IHn & IHs & IHc).
    rewrite IHn, IHs, IHc, Hn, Hs, Hc. cbn [map fold_left filter].
    unfold len. repeat split.
    + cbn [List.length]. lia.
    + destruct (success a); cbn [List.length]; lia.
Qed.

(** X10: the running counters follow every call, also the calls whose
    metric has been evicted since: after any sequence of [log_query]
    calls on a fresh store of any capacity, [_query_count] is the number
    of calls, [_success_count] the number of successful ones and
    [_total_cost] the sum of all their costs. *)
Theorem counters_follow_every_call (C : Z) calls w :
  telemetry w = __init__ C ->
  _query_count (telemetry (snd (log_all calls w))) = len calls /\
  _success_count (telemetry (snd (log_all calls w)))
  = len (filter success calls) /\
  _total_cost (telemetry (snd (log_all calls w)))
  = sumQ (map estimated_cost calls).
Proof.
  intros Hinit.
  destruct (log_all_counters calls w) as (Hn & Hs & Hc).
  rewrite Hinit in Hn, Hs, Hc. cbn in Hn, Hs, Hc.
  repeat split; assumption.
Qed.

(** X11: as long as no more than [max_history] metrics have been logged
    on a fresh store, none is evicted: the store holds all of them in call
    order. *)
Theorem nothing_evicted_below_capacity (C : Z) calls w :
  1 <= C ->
  telemetry w = __init__ C ->
  len calls <= C ->
  queries (telemetry (snd (log_all calls w))) = fst (log_all calls w).
Proof.
  intros HC Hinit HN.
  destruct (log_all_lastn calls w) as (Hl & _ & Hq).
  - rewrite Hinit. exact HC.
  - rewrite Hinit. cbn. lia.
  - rewrite Hq, Hinit. cbn [__init__ queries max_history app].
    apply lastn_short. rewrite Hl. unfold len in HN. lia.
Qed.

Lemma log_all_zero_capacity calls : forall w,
  max_history (telemetry w) = 0 ->
  queries (telemetry (snd (log_all calls w)))
  = queries (telemetry w) ++ fst (log_all calls w).
Proof.
  induction calls as [| a calls IH]; intros w H0.
  - cbn. now rewrite app_nil_r.
  - rewrite log_all_cons. cbn [fst snd].
    assert (Hstep : max_history (telemetry (snd (log_one a w))) = 0 /\
                    queries (telemetry (snd (log_one a w)))
                    = queries (telemetry w) ++ [fst (log_one a w)]).
    { unfold log_one. rewrite log_query_run. cbn. rewrite H0. split; [reflexivity|].
      unfold len. rewrite length_app. cbn [List.length].
      destruct (Z.gtb_spec (Z.of_nat (List.length (queries (telemetry w)) + 1)) 0);
        [reflexivity | lia]. }
    destruct Hstep as [Hmax Hq].
    rewrite (IH _ Hmax), Hq, <- app_assoc. reflexivity.
Qed.

(** X12: a capacity of 0 does not give an empty store but an unbounded
    one: the slice [queries[-0:]] is the whole list, so nothing is ever
    evicted. *)
Theorem zero_capacity_never_evicts calls w :
  telemetry w = __init__ 0 ->
  queries (telemetry (snd (log_all calls w))) = fst (log_all calls w) /\
  len (queries (telemetry (snd (log_all calls w)))) = len calls.
Proof.
  intros Hinit.
  assert (Hq : queries (telemetry (snd (log_all calls w)))
               = fst (log_all calls w)).
  { rewrite log_all_zero_capacity by now rewrite Hinit.
    now rewrite Hinit. }
  split; [exact Hq|]. rewrite Hq.
  unfold len. f_equal.
  rewrite <- (length_map (stamped 0)), log_all_fields. apply length_map.
Qed.

Lemma log_all_negative_capacity calls : forall w,
  max_history (telemetry w) < 0 ->
  queries (telemetry w) = [] ->
  queries (telemetry (snd (log_all calls w))) = [].
Proof.
  induction calls as [| a calls IH]; intros w Hneg Hq.
  - exact Hq.
  - rewrite log_all_cons. cbn [snd].
    apply IH; unfold log_one; rewrite log_query_run; cbn; [exact Hneg|].
    rewrite Hq. cbn [app]. unfold len. cbn [List.length].
    destruct (Z.gtb_spec (Z.of_nat 1) (max_history (telemetry w))); [|lia].
    unfold slice_from.
    destruct (Z.ltb_spec (- max_history (telemetry w)) 0); [lia|].
    apply skipn_all2. cbn. lia.
Qed.

(** X13: with a negative capacity a fresh store never keeps a metric:
    every call appends one and slices it away again. *)
Theorem negative_capacity_keeps_nothing (C : Z) calls w :
  C < 0 ->
  telemetry w = __init__ C ->
  queries (telemetry (snd (log_all calls w))) = [].
Proof.
  intros HC Hinit. apply log_all_negative_capacity; now rewrite Hinit.
Qed.
End StoreMore.

(** * Properties of the aggregator *)

Section DictFacts.
Import Spec.
Context {V : Type}.
Implicit Types (d : list (string * V)).

Lemma lookup_dd_update (dflt : V) upd k k' d :
  lookup k (dd_update dflt upd k' d)
  = if (k' =? k)%string
    then Some (upd match lookup k d with Some v => v | None => dflt end)
    else lookup k d.
Proof.
  induction d as [| [k0 v] d IH]; cbn.
  - destruct (String.eqb_spec k' k); reflexivity.
  - destruct (String.eqb_spec k0 k') as [-> | Hne]; cbn.
    + destruct (String.eqb_spec k' k); reflexivity.
    + rewrite IH.
      destruct (String.eqb_spec k0 k) as [-> | Hne']; [|reflexivity].
      destruct (String.eqb_spec k' k); congruence.
Qed.
End DictFacts.

Section AggregatorFacts.
Import Metrics Spec.
Implicit Types (self : HybridMetrics) (qs : list QueryMetric).

Lemma filter_twice {A : Type} (f g : A -> bool) (l : list A) :
  filter g (filter f l) = filter (fun x => f x && g x) l.
Proof.
  induction l as [| x l IH]; [reflexivity|]. cbn.
  destruct (f x); cbn; [destruct (g x)|]; now rewrite IH.
Qed.

Lemma filter_by_time_window start_time end_time qs :
  filter_by_time start_time end_time qs
  = filter (in_window start_time end_time) qs.
Proof.
  unfold filter_by_time, in_window.
  destruct start_time as [s|], end_time as [e|].
  - rewrite filter_twice. apply filter_ext. intros q.
    now rewrite Z.geb_leb.
  - apply filter_ext. intros q. now rewrite Z.geb_leb, andb_true_r.
  - apply filter_ext. intros q. reflexivity.
  - induction qs as [| q qs IH]; [reflexivity|]. cbn. f_equal. exact IH.
Qed.

Lemma sumZ_from (l : list Z) : forall a, fold_left Z.add l a = a + sumZ l.
Proof.
  unfold sumZ. induction l as [| x l IH]; intros a; cbn; [lia|].
  rewrite IH, (IH x). lia.
Qed.

Lemma sum_counts_dd_update k (d : list (string * Z)) :
  sumZ (map snd (dd_update 0 (fun v => v + 1) k d)) = sumZ (map snd d) + 1.
Proof.
  induction d as [| [k0 v] d IH]; [reflexivity|]. cbn [dd_update].
  destruct (k0 =? k)%string; cbn [map snd]; unfold sumZ in *; cbn [fold_left];
    rewrite !(sumZ_from _ (0 + _)); [lia|].
  unfold sumZ. rewrite IH. lia.
Qed.

Lemma count_by_from dimension qs : forall d,
  sumZ (map snd (fold_left
                   (fun d q => dd_update 0 (fun v => v + 1) (dimension q) d)
                   qs d))
  = sumZ (map snd d) + len qs /\
  forall k,
    lookup k (fold_left
                (fun d q => dd_update 0 (fun v => v + 1) (dimension q) d)
                qs d)
    = match lookup k d with
      | Some n => Some (n + count_of dimension k qs)
      | None => group_count dimension k qs
      end.
Proof.
  induction qs as [| q qs IH]; intros d.
  - cbn. unfold len, group_count, count_of, len, sumZ. cbn.
    split; [lia|]. intros k. destruct (lookup k d); [f_equal; lia | reflexivity].
  - cbn [fold_left].
    destruct (IH (dd_update 0 (fun v => v + 1) (dimension q) d)) as [IHs IHl].
    split.
    + rewrite IHs, sum_counts_dd_update. unfold len. cbn [List.length]. lia.
    + intros k. rewrite IHl, lookup_dd_update.
      unfold group_count, count_of, len. cbn [filter].
      destruct (String.eqb_spec (dimension q) k) as [E | E]; cbn [List.length].
      * destruct (lookup k d); f_equal; try lia.
        destruct (Z.eqb_spec (Z.of_nat (S (List.length
            (filter (fun q0 => (dimension q0 =? k)%string) qs)))) 0); [lia|].
        f_equal. lia.
      * reflexivity.
Qed.

Lemma count_by_spec dimension qs :
  sumZ (map snd (count_by dimension qs)) = len qs /\
  forall k, lookup k (count_by dimension qs) = group_count dimension k qs.
Proof.
  unfold count_by. destruct (count_by_from dimension qs []) as [Hs Hl].
  split; [exact Hs | exact Hl].
Qed.

Lemma aggregate_run self start_time end_time :
  let window := filter (in_window start_time end_time) (queries self) in
  get_aggregated_metrics self start_time end_time
  = match window with
    | [] => Ok zeroed
    | _ :: _ =>
        Ok {| total_queries := len window;
              successful_queries := len (filter success window);
              failed_queries := len window - len (filter success window);
              total_cost := sumQ (map estimated_cost window);
              avg_latency_ms :=
                (sumQ (map latency_ms window) / inject_Z (len window))%Q;
              queries_by_backend := count_by backend window;
              queries_by_complexity := count_by complexity window;
              queries_by_sensitivity := count_by sensitivity window;
              avg_iterations :=
                (inject_Z (sumZ (map iterations window))
                 / inject_Z (len window))%Q |}
    end.
Proof.
  cbv zeta. unfold get_aggregated_metrics.
  rewrite filter_by_time_window.
  destruct (filter (in_window start_time end_time) (queries self))
    as [| q window] eqn:E; [reflexivity|].
  rewrite !py_div_ok by (apply len_nonzero; discriminate).
  reflexivity.
Qed.

(** X14: a window that contains no metric (in particular an empty store)
    gives the zeroed structure: all counts 0, all rates 0, empty groups;
    nothing is divided. *)
Theorem aggregate_of_empty_window self start_time end_time :
  (forall q, In q (queries self) -> in_window start_time end_time q = false) ->
  get_aggregated_metrics self start_time end_time = Ok zeroed.
Proof.
  intros Hout. rewrite aggregate_run. cbv zeta.
  destruct (filter (in_window start_time end_time) (queries self))
    as [| q window] eqn:E; [reflexivity|].
  assert (Hq : In q (filter (in_window start_time end_time) (queries self)))
    by (rewrite E; now left).
  apply filter_In in Hq as [Hin Hw]. rewrite (Hout q Hin) in Hw. discriminate.
Qed.

(** X15: [get_aggregated_metrics] always returns.  Its total is the
    number of stored metrics whose timestamp lies within the inclusive
    bounds, successful and failed counts add up to it, and the total cost
    is the sum over those metrics. *)
Theorem aggregate_counts self start_time end_time :
  exists agg,
    get_aggregated_metrics self start_time end_time = Ok agg /\
    total_queries agg
    = len (filter (in_window start_time end_time) (queries self)) /\
    successful_queries agg
    = len (filter success
             (filter (in_window start_time end_time) (queries self))) /\
    successful_queries agg + failed_queries agg = total_queries agg /\
    0 <= failed_queries agg /\
    total_cost agg
    = sumQ (map estimated_cost
              (filter (in_window start_time end_time) (queries self))).
Proof.
  rewrite aggregate_run. cbv zeta.
  destruct (filter (in_window start_time end_time) (queries self))
    as [| q window] eqn:E.
  - exists zeroed. cbn. repeat split; lia.
  - eexists. split; [reflexivity|]. cbn [total_queries successful_queries
      failed_queries total_cost].
    repeat split; try lia.
    pose proof (filter_length_le success (q :: window)) as Hle.
    unfold len. lia.
Qed.

(** X16: each of the three groupings partitions the window: under every
    key stands the number of metrics of the window with that backend
    (complexity, sensitivity), keys with no metric are absent, and the
    counts of a grouping add up to the total. *)
Theorem aggregate_groups self start_time end_time agg :
  get_aggregated_metrics self start_time end_time = Ok agg ->
  let window := filter (in_window start_time end_time) (queries self) in
  (forall k, lookup k (queries_by_backend agg) = group_count backend k window) /\
  (forall k,
      lookup k (queries_by_complexity agg) = group_count complexity k window) /\
  (forall k,
      lookup k (queries_by_sensitivity agg) = group_count sensitivity k window) /\
  sumZ (map snd (queries_by_backend agg)) = total_queries agg /\
  sumZ (map snd (queries_by_complexity agg)) = total_queries agg /\
  sumZ (map snd (queries_by_sensitivity agg)) = total_queries agg.
Proof.
  rewrite aggregate_run. cbv zeta.
  destruct (filter (in_window start_time end_time) (queries self))
    as [| q window] eqn:E; intros [= <-].
  - cbn. repeat split.
  - cbn [queries_by_backend queries_by_complexity queries_by_sensitivity
           total_queries].
    destruct (count_by_spec backend (q :: window)) as [Hb1 Hb2].
    destruct (count_by_spec complexity (q :: window)) as [Hc1 Hc2].
    destruct (count_by_spec sensitivity (q :: window)) as [Hs1 Hs2].
    repeat split; assumption.
Qed.

End AggregatorFacts.

(** * Properties of the forecaster *)

Section SumFacts.




End SumFacts.

Section ForecasterFacts.
Import Metrics Spec.
Implicit Types (self : HybridMetrics) (recent : list QueryMetric).


Lemma forecast_by_backend_run (time_span : Q) days recent backends :
  ~ (time_span == 0)%Q ->
  forecast_by_backend time_span days recent backends
  = Ok (map (fun b => (b, cost_on b recent / time_span * inject_Z days)%Q)
            backends).
Proof.
  intros Hts. induction backends as [| b backends IH]; [reflexivity|].
  cbn [forecast_by_backend map]. rewrite py_div_ok by exact Hts.
  cbn [rbind]. rewrite IH. reflexivity.
Qed.

Lemma guarded_span_bound span : (1 # 10 <= guarded_span span)%Q.
Proof.
  unfold guarded_span. cbv zeta.
  destruct (Qgtb (1 # 10) (inject_Z span / 1000000 / 86400)) eqn:E.
  - discriminate.
  - unfold Qgtb in E. apply negb_false_iff in E. now apply Qle_bool_iff in E.
Qed.

Lemma guarded_span_nonzero span : ~ (guarded_span span == 0)%Q.
Proof.
  intros H. pose proof (guarded_span_bound span) as Hb. rewrite H in Hb.
  now apply Hb.
Qed.

Lemma guarded_span_short span :
  span < tenth_of_a_day -> guarded_span span = 1%Q.
Proof.
  intros Hs. unfold guarded_span. cbv zeta.
  assert (E : Qgtb (1 # 10) (inject_Z span / 1000000 / 86400) = true).
  { apply Qgtb_true. apply Qlt_shift_div_r; [reflexivity|].
    apply Qlt_shift_div_r; [reflexivity|].
    unfold Qlt, tenth_of_a_day in *. cbn. lia. }
  now rewrite E.
Qed.

Lemma forecast_window_nonempty self :
  queries self <> [] -> forecast_window self <> [].
Proof.
  unfold forecast_window. intros Hq.
  destruct (Z.geb_spec (len (queries self)) 1000) as [Hge | Hlt]; [|exact Hq].
  unfold slice_from. cbn [Z.ltb Z.compare]. intros H.
  apply skipn_all_iff in H. unfold len in *. lia.
Qed.

Lemma forecast_window_length self :
  len (forecast_window self) = Z.min (len (queries self)) 1000.
Proof.
  unfold forecast_window.
  destruct (Z.geb_spec (len (queries self)) 1000) as [Hge | Hlt]; [|lia].
  unfold slice_from. cbn [Z.ltb Z.compare]. unfold len in *.
  rewrite length_skipn. lia.
Qed.

Lemma forecast_run self days :
  2 <= len (queries self) ->
  let recent := forecast_window self in
  let time_span := guarded_span (window_span self) in
  get_cost_forecast self days
  = Ok (Projection days
          (py_int (inject_Z (len recent) / time_span * inject_Z days))
          (sumQ (map estimated_cost recent) / time_span * inject_Z days)%Q
          (inject_Z (len recent) / time_span)%Q
          (sumQ (map estimated_cost recent) / time_span)%Q
          (map (fun b => (b, cost_on b recent / time_span * inject_Z days)%Q)
               (backend_set [] recent))).
Proof.
  intros Htwo. cbv zeta.
  assert (Hlen : 2 <= len (forecast_window self))
    by (rewrite forecast_window_length; lia).
  unfold get_cost_forecast, window_span.
  destruct (queries self) as [| q0 qs0] eqn:Eq; [cbn in Htwo; lia|].
  rewrite <- Eq in *. fold (forecast_window self).
  destruct (forecast_window self) as [| first [| second later]] eqn:Er;
    [cbn in Hlen; lia | cbn in Hlen; lia |].
  fold (guarded_span (timestamp (List.last (second :: later) first)
                      - timestamp first)).
  set (ts := guarded_span _).
  rewrite !py_div_ok by apply guarded_span_nonzero. cbn [rbind].
  rewrite forecast_by_backend_run by apply guarded_span_nonzero.
  reflexivity.
Qed.

Lemma forecast_small self days :
  2 <= len (queries self) \/
  exists e, get_cost_forecast self days = Ok (ForecastError e).
Proof.
  unfold get_cost_forecast.
  destruct (queries self) as [| q [| q' qs]];
    [right; eauto | right; cbn; eauto |].
  left. unfold len. cbn [List.length]. lia.
Qed.

(** X18: a forecast needs two samples: an empty store gives the error
    "No data for forecasting", a store with one metric the error
    "Insufficient data for forecasting", and any larger store a
    projection; no store makes it raise. *)
Theorem forecast_needs_two_samples self days :
  (queries self = [] ->
   get_cost_forecast self days = Ok (ForecastError "No data for forecasting")) /\
  (len (queries self) = 1 ->
   get_cost_forecast self days
   = Ok (ForecastError "Insufficient data for forecasting")) /\
  (2 <= len (queries self) ->
   exists projected_queries projected_cost daily_queries daily_cost by_backend,
     get_cost_forecast self days
     = Ok (Projection days projected_queries projected_cost daily_queries
             daily_cost by_backend)).
Proof.
  split; [|split].
  - intros E. unfold get_cost_forecast. now rewrite E.
  - intros E. unfold get_cost_forecast.
    destruct (queries self) as [| q [| q' qs]].
    + cbn in E. lia.
    + reflexivity.
    + unfold len in E. cbn [List.length] in E. lia.
  - intros Htwo. rewrite (forecast_run self days Htwo). cbv zeta.
    do 5 eexists. reflexivity.
Qed.




Lemma py_int_of_integer (x : Q) (z : Z) : (x == inject_Z z)%Q -> py_int x = z.
Proof.
  intros Hx. unfold py_int.
  destruct (Qle_bool 0 x).
  - rewrite (Qfloor_comp _ _ Hx). apply Qfloor_Z.
  - rewrite (Qceiling_comp _ _ Hx). apply Qceiling_Z.
Qed.

(** X20: a forecast never extrapolates from less than a tenth of a day:
    the daily query rate is at most ten times the number of samples in the
    window.  When the samples span less than that (or the newest is
    stamped before the oldest), the window counts as one day: the daily
    rate is the number of samples and the projection is that number times
    the days asked for. *)
Theorem forecast_short_span self days
        projected_queries projected_cost daily_queries daily_cost by_backend :
  get_cost_forecast self days
  = Ok (Projection days projected_queries projected_cost daily_queries
          daily_cost by_backend) ->
  (daily_queries <= 10 * inject_Z (len (forecast_window self)))%Q /\
  (window_span self < tenth_of_a_day ->
   (daily_queries == inject_Z (len (forecast_window self)))%Q /\
   projected_queries = len (forecast_window self) * days /\
   (projected_cost
    == sumQ (map estimated_cost (forecast_window self)) * inject_Z days)%Q).
Proof.
  intros Hrun.
  assert (Htwo : 2 <= len (queries self)).
  { destruct (forecast_small self days) as [H | (e & He)]; [exact H|].
    rewrite He in Hrun. discriminate. }
  rewrite (forecast_run self days Htwo) in Hrun. cbv zeta in Hrun.
  injection Hrun as <- <- <- <- <-.
  pose proof (guarded_span_bound (window_span self)) as Hb.
  assert (Hn : (0 <= inject_Z (len (forecast_window self)))%Q).
  { change 0%Q with (inject_Z 0). rewrite <- Zle_Qle. unfold len. lia. }
  split.
  - apply Qle_shift_div_r.
    + eapply Qlt_le_trans; [|exact Hb]. reflexivity.
    + revert Hb Hn. generalize (guarded_span (window_span self)),
        (inject_Z (len (forecast_window self))). intros t n Hb Hn. nra.
  - intros Hshort. rewrite (guarded_span_short _ Hshort).
    split; [field|]. split; [|field].
    apply py_int_of_integer. rewrite inject_Z_mult. field.
Qed.
End ForecasterFacts.

(** * Properties of the export *)

Section ExportFacts.
Import Metrics Spec.
Implicit Types (self : HybridMetrics) (s : string).






(** X22: [export_metrics] knows the formats "json" and "csv", spelled
    exactly so; for any other format it raises a ValueError whose text
    names the format, whatever the store holds. *)
Theorem export_rejects_unknown_format self format :
  format <> "json" ->
  format <> "csv" ->
  export_metrics self format
  = Raise (ValueError ("Unknown format: " ++ format)).
Proof.
  intros Hj Hc. unfold export_metrics.
  destruct (String.eqb_spec format "json"); [contradiction|].
  destruct (String.eqb_spec format "csv"); [contradiction|].
  reflexivity.
Qed.
End ExportFacts.

(** * Further properties of the recommendation engine *)

Section AdvisoryFacts.
Import Metrics Spec.
Implicit Types (self : HybridMetrics) (recent : list QueryMetric)
         (recs more : list Recommendation).

Lemma check_simple_expensive_shape self recs :
  exists more,
    check_simple_expensive self recs = Ok (recs ++ more) /\
    at_most_one "cost_optimization" more /\
    is_empty more
    = negb (Qgtb (inject_Z (len (expensive_simple self)))
                 (inject_Z (len (simple_queries self)) * (3 # 10))).
Proof.
  unfold check_simple_expensive, expensive_simple, simple_queries.
  destruct (filter is_simple (queries self)) as [| q qs] eqn:E.
  - exists []. rewrite app_nil_r. repeat split. now left.
  - destruct (Qgtb _ _).
    + rewrite py_div_ok by (apply len_nonzero; discriminate). cbn [rbind].
      eexists. split; [reflexivity|]. split; [|reflexivity].
      right. eexists. split; reflexivity.
    + exists []. rewrite app_nil_r. repeat split. now left.
Qed.

Lemma check_iterative_api_shape self recs :
  exists more,
    check_iterative_api self recs = recs ++ more /\
    at_most_one "data_privacy" more /\
    is_empty more = is_empty (filter is_iterative_api (queries self)).
Proof.
  unfold check_iterative_api.
  destruct (filter is_iterative_api (queries self)) as [| q qs].
  - exists []. rewrite app_nil_r. repeat split. now left.
  - eexists. split; [reflexivity|]. split; [|reflexivity].
    right. eexists. split; reflexivity.
Qed.

Lemma check_failure_rate_shape recent recs :
  recent <> [] ->
  exists more,
    check_failure_rate recent recs = Ok (recs ++ more) /\
    at_most_one "reliability" more /\
    is_empty more
    = negb (Qgtb (inject_Z (failures recent) / inject_Z (len recent)) (1 # 10)).
Proof.
  intros Hr. unfold check_failure_rate, failures.
  rewrite py_div_ok by now apply len_nonzero. cbn [rbind].
  destruct (Qgtb _ _).
  - eexists. split; [reflexivity|]. split; [|reflexivity].
    right. eexists. split; reflexivity.
  - exists []. rewrite app_nil_r. repeat split. now left.
Qed.

Lemma check_latency_shape recent recs :
  recent <> [] ->
  exists more,
    check_latency recent recs = Ok (recs ++ more) /\
    at_most_one "performance" more /\
    is_empty more
    = negb (Qgtb (sumQ (map latency_ms recent) / inject_Z (len recent)) 5000).
Proof.
  intros Hr.
  destruct (check_latency_ok recent recs Hr) as (more & Hok).
  exists more. split; [exact Hok|].
  revert Hok. unfold check_latency.
  rewrite py_div_ok by now apply len_nonzero. cbn [rbind].
  destruct (Qgtb _ 5000).
  - destruct (py_max mean_of (slow_backends_of recent)) as [slowest | e];
      cbn [rbind]; [|discriminate].
    destruct (mean_of slowest) as [k | e]; cbn [rbind]; [|discriminate].
    intros [= H]. apply app_inv_head in H. subst more.
    split; [|reflexivity]. right. eexists. split; reflexivity.
  - intros [= H]. rewrite <- (app_nil_r recs) in H at 1.
    apply app_inv_head in H. subst more. split; [now left | reflexivity].
Qed.

Lemma check_cost_distribution_shape self recs :
  queries self <> [] ->
  exists more,
    check_cost_distribution self recs = Ok (recs ++ more) /\
    at_most_one "cost_distribution" more.
Proof.
  intros Hq.
  destruct (check_cost_distribution_ok self recs Hq) as (more & Hok).
  exists more. split; [exact Hok|].
  revert Hok. unfold check_cost_distribution.
  assert (Hnil : forall m, Ok recs = Ok (recs ++ m) -> at_most_one "cost_distribution" m).
  { intros m [= H]. rewrite <- (app_nil_r recs) in H at 1.
    apply app_inv_head in H. subst m. now left. }
  destruct (Qgtb (_total_cost self) 0); [|apply Hnil].
  destruct (py_max _ _) as [top | e]; cbn [rbind]; [|discriminate].
  destruct (Qgtb (snd top) _); [|apply Hnil].
  destruct (py_div _ _) as [share | e]; cbn [rbind]; [|discriminate].
  intros [= H]. apply app_inv_head in H. subst more.
  right. eexists. split; reflexivity.
Qed.

(** The result of [get_recommendations] on a store with at least ten
    metrics, check by check. *)
Lemma recommendations_shape self :
  10 <= len (queries self) ->
  exists m1 m2 m3 m4 m5,
    get_recommendations self
    = Ok match m1 ++ m2 ++ m3 ++ m4 ++ m5 with
         | [] => [nothing_to_do]
         | r :: recs => r :: recs
         end /\
    at_most_one "cost_optimization" m1 /\
    at_most_one "data_privacy" m2 /\
    at_most_one "reliability" m3 /\
    at_most_one "performance" m4 /\
    at_most_one "cost_distribution" m5 /\
    is_empty m1
    = negb (Qgtb (inject_Z (len (expensive_simple self)))
                 (inject_Z (len (simple_queries self)) * (3 # 10))) /\
    is_empty m2 = is_empty (filter is_iterative_api (queries self)) /\
    is_empty m3
    = negb (Qgtb (inject_Z (failures (recent_of self))
                  / inject_Z (len (recent_of self))) (1 # 10)) /\
    is_empty m4
    = negb (Qgtb (sumQ (map latency_ms (recent_of self))
                  / inject_Z (len (recent_of self))) 5000).
Proof.
  intros Hten. unfold get_recommendations.
  destruct (Z.ltb_spec (len (queries self)) 10) as [Hlt | _]; [lia|].
  assert (Hq : queries self <> []).
  { intros E. rewrite E in Hten. cbn in Hten. lia. }
  pose proof (recent_of_nonempty self Hq) as Hr.
  destruct (check_simple_expensive_shape self []) as (m1 & -> & H1 & E1).
  cbn [rbind app].
  destruct (check_iterative_api_shape self m1) as (m2 & -> & H2 & E2).
  destruct (check_failure_rate_shape (recent_of self) (m1 ++ m2) Hr)
    as (m3 & -> & H3 & E3).
  cbn [rbind].
  destruct (check_latency_shape (recent_of self) ((m1 ++ m2) ++ m3) Hr)
    as (m4 & -> & H4 & E4).
  cbn [rbind].
  destruct (check_cost_distribution_shape self (((m1 ++ m2) ++ m3) ++ m4) Hq)
    as (m5 & -> & H5).
  cbn [rbind].
  exists m1, m2, m3, m4, m5.
  rewrite <- !app_assoc.
  split; [|repeat split; assumption].
  destruct (m1 ++ m2 ++ m3 ++ m4 ++ m5); reflexivity.
Qed.

Lemma has_type_app t recs more :
  has_type t (recs ++ more) = has_type t recs || has_type t more.
Proof. apply existsb_app. Qed.

Lemma has_type_at_most_one t t' more :
  at_most_one t' more ->
  has_type t more = (t' =? t)%string && negb (is_empty more).
Proof.
  intros [-> | (r & -> & <-)]; cbn.
  - now rewrite andb_false_r.
  - now rewrite orb_false_r, andb_true_r.
Qed.
End AdvisoryFacts.

Section AdvisoryClaims.
Import Metrics Spec.
Implicit Types (self : HybridMetrics) (recs : list Recommendation).

Lemma has_type_result t (l : list Recommendation) :
  t <> "info" ->
  has_type t match l with [] => [nothing_to_do] | r :: recs => r :: recs end
  = has_type t l.
Proof.
  intros Ht. destruct l; [|reflexivity]. unfold has_type, existsb.
  change (type nothing_to_do) with "info".
  destruct (String.eqb_spec "info" t); [congruence | reflexivity].
Qed.

Lemma has_type_of_checks t self recs :
  t <> "info" ->
  10 <= len (queries self) ->
  get_recommendations self = Ok recs ->
  exists m1 m2 m3 m4 m5 : list Recommendation,
    has_type t recs
    = ("cost_optimization" =? t)%string && negb (is_empty m1)
      || ("data_privacy" =? t)%string && negb (is_empty m2)
      || ("reliability" =? t)%string && negb (is_empty m3)
      || ("performance" =? t)%string && negb (is_empty m4)
      || ("cost_distribution" =? t)%string && negb (is_empty m5) /\
    is_empty m1
    = negb (Qgtb (inject_Z (len (expensive_simple self)))
                 (inject_Z (len (simple_queries self)) * (3 # 10))) /\
    is_empty m2 = is_empty (filter is_iterative_api (queries self)) /\
    is_empty m3
    = negb (Qgtb (inject_Z (failures (recent_of self))
                  / inject_Z (len (recent_of self))) (1 # 10)) /\
    is_empty m4
    = negb (Qgtb (sumQ (map latency_ms (recent_of self))
                  / inject_Z (len (recent_of self))) 5000).
Proof.
  intros Ht Hten Hrun.
  destruct (recommendations_shape self Hten)
    as (m1 & m2 & m3 & m4 & m5 & Hshape & H1 & H2 & H3 & H4 & H5
        & E1 & E2 & E3 & E4).
  rewrite Hshape in Hrun. injection Hrun as <-.
  exists m1, m2, m3, m4, m5. split; [|repeat split; assumption].
  rewrite has_type_result by exact Ht.
  rewrite !has_type_app.
  rewrite (has_type_at_most_one t _ m1 H1), (has_type_at_most_one t _ m2 H2),
    (has_type_at_most_one t _ m3 H3), (has_type_at_most_one t _ m4 H4),
    (has_type_at_most_one t _ m5 H5).
  now rewrite !orb_assoc.
Qed.

(** X23: [get_recommendations] returns on every store and never returns
    an empty list: either the single "info" advisory, or at most one
    advisory per check, in the order cost_optimization, data_privacy,
    reliability, performance, cost_distribution. *)
Theorem recommendations_never_empty self :
  exists recs,
    get_recommendations self = Ok recs /\
    recs <> [] /\
    (map type recs = ["info"] \/
     subsequence (map type recs) check_types = true).
Proof.
  destruct (Z.lt_ge_cases (len (queries self)) 10) as [Hfew | Hten].
  - unfold get_recommendations.
    destruct (Z.ltb_spec (len (queries self)) 10) as [_ | Hge]; [|lia].
    eexists. split; [reflexivity|]. split; [discriminate | now left].
  - destruct (recommendations_shape self Hten)
      as (m1 & m2 & m3 & m4 & m5 & -> & H1 & H2 & H3 & H4 & H5 & _).
    eexists. split; [reflexivity|].
    destruct H1 as [-> | (r1 & -> & T1)], H2 as [-> | (r2 & -> & T2)],
      H3 as [-> | (r3 & -> & T3)], H4 as [-> | (r4 & -> & T4)],
      H5 as [-> | (r5 & -> & T5)];
      cbn [app map]; rewrite ?T1, ?T2, ?T3, ?T4, ?T5;
      (split; [discriminate|]);
      first [left; reflexivity | right; reflexivity].
Qed.

Lemma nonempty_filter {A : Type} (f : A -> bool) (l : list A) :
  is_empty (filter f l) = false <-> exists x, In x l /\ f x = true.
Proof.
  split.
  - destruct (filter f l) as [| x xs] eqn:E; [discriminate|]. intros _.
    exists x. apply filter_In. rewrite E. now left.
  - intros (x & Hx). apply filter_In in Hx.
    destruct (filter f l); [destruct Hx | reflexivity].
Qed.

(** X24: on a store with at least ten metrics, a data_privacy advisory
    is returned exactly when some stored metric took more than one
    iteration on a backend whose name contains "claude". *)
Theorem privacy_advisory_iff self recs :
  10 <= len (queries self) ->
  get_recommendations self = Ok recs ->
  (has_type "data_privacy" recs = true <->
   exists q,
     In q (queries self) /\ 1 < iterations q /\
     str_contains "claude" (backend q) = true).
Proof.
  intros Hten Hrun.
  destruct (has_type_of_checks "data_privacy" self recs) as
    (m1 & m2 & m3 & m4 & m5 & -> & _ & E2 & _); [discriminate | assumption..|].
  cbn [String.eqb Ascii.eqb Bool.eqb andb orb]. rewrite ?orb_false_r, E2.
  rewrite negb_true_iff, nonempty_filter.
  split; intros (q & Hq & Hi); exists q; (split; [exact Hq|]).
  - unfold is_iterative_api in Hi. apply andb_true_iff in Hi as [Hi Hc].
    split; [lia | exact Hc].
  - unfold is_iterative_api. destruct Hi as [Hi Hc]. rewrite Hc, andb_true_r.
    lia.
Qed.

Lemma rate_above_tenth (f n : Z) :
  0 < n ->
  Qgtb (inject_Z f / inject_Z n) (1 # 10) = true <-> n < 10 * f.
Proof.
  intros Hn. rewrite Qgtb_true.
  assert (Hpos : (0 < inject_Z n)%Q)
    by (change 0%Q with (inject_Z 0); now rewrite <- Zlt_Qlt).
  split.
  - intros H. apply (Qmult_lt_compat_r _ _ (inject_Z n)) in H; [|exact Hpos].
    rewrite Qmult_comm, (Qmult_comm (_ / _)), Qmult_div_r in H
      by (intros E; rewrite E in Hpos; now apply Qlt_irrefl in Hpos).
    unfold Qlt in H. cbn in H. lia.
  - intros H. apply Qlt_shift_div_l; [exact Hpos|].
    unfold Qlt, Qmult, inject_Z. cbn [Qnum Qden]. lia.
Qed.

(** X25: on a store with at least ten metrics, a reliability advisory is
    returned exactly when more than a tenth of the most recent hundred
    metrics (or of all of them, when there are fewer) have failed. *)
Theorem reliability_advisory_iff self recs :
  10 <= len (queries self) ->
  get_recommendations self = Ok recs ->
  (has_type "reliability" recs = true <->
   len (recent_of self) < 10 * failures (recent_of self)).
Proof.
  intros Hten Hrun.
  destruct (has_type_of_checks "reliability" self recs) as
    (m1 & m2 & m3 & m4 & m5 & -> & _ & _ & E3 & _); [discriminate | assumption..|].
  cbn [String.eqb Ascii.eqb Bool.eqb andb orb].
  rewrite ?orb_false_r, E3, negb_involutive.
  apply rate_above_tenth.
  assert (Hr : recent_of self <> []).
  { apply recent_of_nonempty. intros E. rewrite E in Hten. cbn in Hten. lia. }
  unfold len. destruct (recent_of self); [congruence | cbn; lia].
Qed.


(** X27: on a store with at least ten metrics, a cost_optimization
    advisory is returned exactly when strictly more than 30% of the
    simple-complexity metrics ran on claude_opus or claude_sonnet; at 30%
    or below, and when there is no simple-complexity metric, there is
    none. *)
Theorem cost_advisory_iff self recs :
  10 <= len (queries self) ->
  get_recommendations self = Ok recs ->
  (has_type "cost_optimization" recs = true <->
   3 * len (simple_queries self) < 10 * len (expensive_simple self)).
Proof.
  intros Hten Hrun.
  destruct (has_type_of_checks "cost_optimization" self recs) as
    (m1 & m2 & m3 & m4 & m5 & -> & E1 & _); [discriminate | assumption..|].
  cbn [String.eqb Ascii.eqb Bool.eqb andb orb].
  rewrite ?orb_false_r, E1, negb_involutive, Qgtb_true.
  unfold Qlt, Qmult, inject_Z. cbn [Qnum Qden]. lia.
Qed.
End AdvisoryClaims.

Section MetricsMoreSamples.
Import Metrics Spec Sample.

Lemma counters_follow_every_call_witness :
  _query_count (telemetry (snd (log_all (ten_simple 3) (fresh_world 4))))
  = len (ten_simple 3) /\
  _success_count (telemetry (snd (log_all (ten_simple 3) (fresh_world 4))))
  = len (filter success (ten_simple 3)) /\
  _total_cost (telemetry (snd (log_all (ten_simple 3) (fresh_world 4))))
  = sumQ (map estimated_cost (ten_simple 3)).
Proof.
  apply (counters_follow_every_call 4 (ten_simple 3) (fresh_world 4)).
  reflexivity.
Defined.

Lemma nothing_evicted_below_capacity_witness :
  queries (telemetry (snd (log_all (ten_simple 3) (fresh_world 10))))
  = fst (log_all (ten_simple 3) (fresh_world 10)).
Proof.
  apply (nothing_evicted_below_capacity 10 (ten_simple 3) (fresh_world 10)).
  - lia.
  - reflexivity.
  - vm_compute. discriminate.
Defined.

Lemma zero_capacity_never_evicts_witness :
  queries (telemetry (snd (log_all (ten_simple 3) (fresh_world 0))))
  = fst (log_all (ten_simple 3) (fresh_world 0)) /\
  len (queries (telemetry (snd (log_all (ten_simple 3) (fresh_world 0)))))
  = len (ten_simple 3).
Proof.
  apply (zero_capacity_never_evicts (ten_simple 3) (fresh_world 0)).
  reflexivity.
Defined.

Lemma negative_capacity_keeps_nothing_witness :
  queries (telemetry (snd (log_all (ten_simple 3) (fresh_world (-2))))) = [].
Proof.
  apply (negative_capacity_keeps_nothing (-2) (ten_simple 3) (fresh_world (-2))).
  - lia.
  - reflexivity.
Defined.

Lemma aggregate_of_empty_window_witness :
  get_aggregated_metrics (Metrics.__init__ 10000) (Some 5) None = Ok zeroed.
Proof.
  apply (aggregate_of_empty_window (Metrics.__init__ 10000) (Some 5) None).
  intros q [].
Defined.

Lemma aggregate_groups_witness :
  exists agg,
    get_aggregated_metrics (store_after (ten_simple 4)) (Some 2000) (Some 8000)
    = Ok agg /\
    lookup "claude_opus" (queries_by_backend agg) = Some 2 /\
    lookup "mistral" (queries_by_backend agg) = None /\
    sumZ (map snd (queries_by_backend agg)) = total_queries agg.
Proof.
  eexists. split; [vm_compute; reflexivity|].
  match goal with
  | |- context [queries_by_backend ?a] =>
      destruct (aggregate_groups (store_after (ten_simple 4)) (Some 2000)
                  (Some 8000) a) as (Hb & _ & _ & Hsum & _)
  end.
  - vm_compute. reflexivity.
  - split; [|split].
    + rewrite Hb. reflexivity.
    + rewrite Hb. reflexivity.
    + exact Hsum.
Defined.


Lemma forecast_needs_two_samples_witness :
  get_cost_forecast (Metrics.__init__ 10000) 30
  = Ok (ForecastError "No data for forecasting") /\
  get_cost_forecast (store_after [sample_metric "simple" "cortex"]) 30
  = Ok (ForecastError "Insufficient data for forecasting") /\
  exists projected_queries projected_cost daily_queries daily_cost by_backend,
    get_cost_forecast (store_after (ten_simple 4)) 30
    = Ok (Projection 30 projected_queries projected_cost daily_queries
            daily_cost by_backend).
Proof.
  split; [|split].
  - apply (forecast_needs_two_samples (Metrics.__init__ 10000) 30). reflexivity.
  - apply (forecast_needs_two_samples
             (store_after [sample_metric "simple" "cortex"]) 30).
    reflexivity.
  - apply (forecast_needs_two_samples (store_after (ten_simple 4)) 30).
    vm_compute. discriminate.
Defined.


Lemma forecast_short_span_witness :
  exists projected_queries projected_cost daily_queries daily_cost by_backend,
    get_cost_forecast (store_after (ten_simple 4)) 30
    = Ok (Projection 30 projected_queries projected_cost daily_queries
            daily_cost by_backend) /\
    projected_queries = 300.
Proof.
  do 5 eexists. split; [vm_compute; reflexivity|].
  etransitivity;
    [eapply (forecast_short_span (store_after (ten_simple 4)) 30)|];
    [vm_compute; reflexivity | vm_compute; reflexivity | reflexivity].
Defined.

Lemma export_rejects_unknown_format_witness :
  export_metrics (store_after (ten_simple 4)) "xml"
  = Raise (ValueError "Unknown format: xml").
Proof.
  apply (export_rejects_unknown_format (store_after (ten_simple 4)) "xml");
    discriminate.
Defined.

Lemma privacy_advisory_iff_witness :
  exists recs,
    get_recommendations (store_after (ten_simple 4)) = Ok recs /\
    (has_type "data_privacy" recs = true <->
     exists q,
       In q (queries (store_after (ten_simple 4))) /\ 1 < iterations q /\
       str_contains "claude" (backend q) = true).
Proof.
  eexists. split; [vm_compute; reflexivity|].
  apply (privacy_advisory_iff (store_after (ten_simple 4))).
  - vm_compute. discriminate.
  - vm_compute. reflexivity.
Defined.

Lemma reliability_advisory_iff_witness :
  exists recs,
    get_recommendations (store_after (ten_simple 4)) = Ok recs /\
    (has_type "reliability" recs = true <->
     len (recent_of (store_after (ten_simple 4)))
     < 10 * failures (recent_of (store_after (ten_simple 4)))).
Proof.
  eexists. split; [vm_compute; reflexivity|].
  apply (reliability_advisory_iff (store_after (ten_simple 4))).
  - vm_compute. discriminate.
  - vm_compute. reflexivity.
Defined.


Lemma cost_advisory_iff_witness :
  exists recs,
    get_recommendations (store_after (ten_simple 4)) = Ok recs /\
    (has_type "cost_optimization" recs = true <->
     3 * len (simple_queries (store_after (ten_simple 4)))
     < 10 * len (expensive_simple (store_after (ten_simple 4)))).
Proof.
  eexists. split; [vm_compute; reflexivity|].
  apply (cost_advisory_iff (store_after (ten_simple 4))).
  - vm_compute. discriminate.
  - vm_compute. reflexivity.
Defined.
End MetricsMoreSamples.
